(** * Win-Graphics-Win32-API: the Direct2D circle window

    A shallow embedding of [GraphicsWin32/src/main.cpp].  The window
    object, the COM objects handed out by Direct2D and the sequence of
    calls made into the operating system are explicit state; every
    member function of [MainWindow] is a computation over that state
    which may fault on a bad pointer. *)

From Stdlib Require Import ZArith Lia SpecFloat.
From stdpp Require Import gmap list.

Local Open Scope Z_scope.

(** ** Machine scalars *)

(** [FLOAT] is IEEE-754 binary32: 24 bits of precision, [emax = 128]. *)
Definition FLOAT := spec_float.
Definition prec32 : Z := 24.
Definition emax32 : Z := 128.

(** Conversion of an integer constant or value to [FLOAT]. *)
Definition FLOAT_of_Z (n : Z) : FLOAT := binary_normalize prec32 emax32 n 0 false.
Definition fdiv (a b : FLOAT) : FLOAT := SFdiv prec32 emax32 a b.
Definition flt (a b : FLOAT) : bool := SFltb a b.

(** The [min] macro of the Windows headers:
    [#define min(a,b) (((a) < (b)) ? (a) : (b))]. *)
Definition min (a b : FLOAT) : FLOAT := if flt a b then a else b.

(** [LONG] and [HRESULT] are 32-bit signed, [UINT32] is 32-bit unsigned. *)
Definition LONG_of_bits (u : Z) : Z := (u + 2 ^ 31) mod 2 ^ 32 - 2 ^ 31.
Definition UINT32_of (n : Z) : Z := n mod 2 ^ 32.

Definition HRESULT := Z.
Definition S_OK : HRESULT := 0.
Definition E_OUTOFMEMORY : HRESULT := LONG_of_bits 0x8007000E.
Definition D2DERR_RECREATE_TARGET : HRESULT := LONG_of_bits 0x8899000C.
Definition SUCCEEDED (hr : HRESULT) : bool := 0 <=? hr.
Definition FAILED (hr : HRESULT) : bool := hr <? 0.

Definition UINT := Z.
Definition WM_CREATE : UINT := 0x0001.
Definition WM_DESTROY : UINT := 0x0002.
Definition WM_SIZE : UINT := 0x0005.
Definition WM_PAINT : UINT := 0x000F.

Definition HWND := Z.
Definition LRESULT := Z.

(** ** Direct2D value types *)

Record RECT := mkRECT { rc_left : Z; rc_top : Z; rc_right : Z; rc_bottom : Z }.
Record D2D1_SIZE_U := mkSizeU { uwidth : Z; uheight : Z }.
Record D2D1_SIZE_F := mkSizeF { width : FLOAT; height : FLOAT }.
Record D2D1_POINT_2F := mkPoint2F { pt_x : FLOAT; pt_y : FLOAT }.
Record D2D1_ELLIPSE := mkEllipse
  { point : D2D1_POINT_2F; radiusX : FLOAT; radiusY : FLOAT }.
Record D2D1_COLOR_F := mkColorF
  { color_r : FLOAT; color_g : FLOAT; color_b : FLOAT; color_a : FLOAT }.

Inductive D2D1_FACTORY_TYPE :=
| D2D1_FACTORY_TYPE_SINGLE_THREADED
| D2D1_FACTORY_TYPE_MULTI_THREADED.

(** The helpers of namespace [D2D1] that the program calls. *)
Module D2D1.

Definition Point2F (x y : FLOAT) : D2D1_POINT_2F := mkPoint2F x y.

Definition Ellipse (center : D2D1_POINT_2F) (rx ry : FLOAT) : D2D1_ELLIPSE :=
  mkEllipse center rx ry.

(** [SizeU] takes [UINT32] arguments; the [LONG] fields of a [RECT]
    are converted on the way in. *)
Definition SizeU (w h : Z) : D2D1_SIZE_U := mkSizeU (UINT32_of w) (UINT32_of h).

(** [ColorF(FLOAT r, FLOAT g, FLOAT b, FLOAT a = 1.0)]. *)
Definition ColorF (r g b : FLOAT) : D2D1_COLOR_F := mkColorF r g b (FLOAT_of_Z 1).

(** [ColorF(UINT32 rgb, FLOAT a = 1.0)]: one byte per channel, scaled
    by [255.f]. *)
Definition ColorF_rgb (rgb : Z) : D2D1_COLOR_F :=
  let chan mask shift :=
    fdiv (FLOAT_of_Z (Z.shiftr (Z.land rgb mask) shift)) (FLOAT_of_Z 255) in
  mkColorF (chan 0xff0000 16) (chan 0x00ff00 8) (chan 0x0000ff 0) (FLOAT_of_Z 1).

Definition BlanchedAlmond : Z := 0xFFEBCD.

End D2D1.

(** ** The window object, the COM heap and the call log *)

(** An interface pointer is [None] when it is [NULL]. *)
Definition ptr := positive.

(** The data members of [MainWindow]; [m_hwnd] is inherited from
    [BaseWindow]. *)
Record MainWindow := mkMainWindow
  { m_hwnd : HWND;
    pFactory : option ptr;
    pRenderTarget : option ptr;
    pBrush : option ptr;
    ellipse : D2D1_ELLIPSE }.

(** What Direct2D keeps behind an interface pointer. *)
Inductive COMObject :=
| ID2D1Factory (ty : D2D1_FACTORY_TYPE)
| ID2D1HwndRenderTarget (hwnd : HWND) (pixelSize : D2D1_SIZE_U)
| ID2D1SolidColorBrush (target : ptr) (color : D2D1_COLOR_F).

(** The calls that leave the program, with their arguments and, where
    the program reads it, their result. *)
Inductive Call :=
| EvD2D1CreateFactory (ty : D2D1_FACTORY_TYPE) (hr : HRESULT)
| EvGetClientRect (h : HWND) (rc : RECT)
| EvCreateHwndRenderTarget (factory : ptr) (h : HWND) (size : D2D1_SIZE_U) (hr : HRESULT)
| EvCreateSolidColorBrush (target : ptr) (color : D2D1_COLOR_F) (hr : HRESULT)
| EvRelease (p : ptr)
| EvBeginPaint (h : HWND)
| EvBeginDraw (target : ptr)
| EvClear (target : ptr) (color : D2D1_COLOR_F)
| EvFillEllipse (target : ptr) (e : D2D1_ELLIPSE) (brush : option ptr)
| EvEndDraw (target : ptr) (hr : HRESULT)
| EvEndPaint (h : HWND)
| EvResize (target : ptr) (size : D2D1_SIZE_U)
| EvInvalidateRect (h : HWND) (lpRect : option RECT) (bErase : bool)
| EvPostQuitMessage (nExitCode : Z)
| EvDefWindowProc (h : HWND) (uMsg : UINT) (wParam lParam : Z).

Record World := mkWorld
  { this : MainWindow;
    heap : gmap ptr COMObject;
    log : list Call }.

(** What the system answers while one message is handled.  Each of
    these calls is made at most once per message.  [env_dips] is the
    size in device-independent pixels that a render target of a given
    pixel size reports; it depends on the DPI of the display. *)
Record Env := mkEnv
  { env_clientRect : RECT;
    env_hrFactory : HRESULT;
    env_hrRenderTarget : HRESULT;
    env_hrBrush : HRESULT;
    env_hrEndDraw : HRESULT;
    env_dips : D2D1_SIZE_U -> D2D1_SIZE_F;
    env_defWindowProc : LRESULT }.

#[global] Instance COMObject_inhabited : Inhabited COMObject :=
  populate (ID2D1Factory D2D1_FACTORY_TYPE_SINGLE_THREADED).

(** ** Computations: state passing with faults *)

Module Run.

(** [None] is a fault: a call through [NULL] or through a pointer
    whose object is gone. *)
Definition M (A : Type) : Type := World -> option (A * World).

Definition ret {A} (v : A) : M A := fun w => Some (v, w).

Definition bind {A B} (m : M A) (k : A -> M B) : M B :=
  fun w => match m w with
           | Some (v, w') => k v w'
           | None => None
           end.

Definition fault {A} : M A := fun _ => None.

Definition member {A} (f : MainWindow -> A) : M A := fun w => Some (f (this w), w).

Definition assign (f : MainWindow -> MainWindow) : M unit :=
  fun w => Some (tt, mkWorld (f (this w)) (heap w) (log w)).

Definition call (c : Call) : M unit :=
  fun w => Some (tt, mkWorld (this w) (heap w) (log w ++ [c])).

Definition deref (p : ptr) : M COMObject :=
  fun w => match heap w !! p with
           | Some o => Some (o, w)
           | None => None
           end.

Definition new (o : COMObject) : M ptr :=
  fun w => let p := fresh (dom (heap w)) in
           Some (p, mkWorld (this w) (<[p := o]> (heap w)) (log w)).

Definition update (p : ptr) (o : COMObject) : M unit :=
  fun w => Some (tt, mkWorld (this w) (<[p := o]> (heap w)) (log w)).

Definition free (p : ptr) : M unit :=
  fun w => Some (tt, mkWorld (this w) (delete p (heap w)) (log w)).

End Run.

Import Run.

#[global] Instance M_ret : MRet M := @ret.
#[global] Instance M_bind : MBind M := fun A B k m => bind m k.

(** Assignment to one data member. *)
Definition set_pFactory (v : option ptr) (t : MainWindow) : MainWindow :=
  mkMainWindow (m_hwnd t) v (pRenderTarget t) (pBrush t) (ellipse t).
Definition set_pRenderTarget (v : option ptr) (t : MainWindow) : MainWindow :=
  mkMainWindow (m_hwnd t) (pFactory t) v (pBrush t) (ellipse t).
Definition set_pBrush (v : option ptr) (t : MainWindow) : MainWindow :=
  mkMainWindow (m_hwnd t) (pFactory t) (pRenderTarget t) v (ellipse t).
Definition set_ellipse (v : D2D1_ELLIPSE) (t : MainWindow) : MainWindow :=
  mkMainWindow (m_hwnd t) (pFactory t) (pRenderTarget t) (pBrush t) v.

(** The address of an interface-pointer member, as [SafeRelease] takes it. *)
Record PtrMember := mkPtrMember
  { load : MainWindow -> option ptr;
    store : option ptr -> MainWindow -> MainWindow }.

Definition addr_pFactory := mkPtrMember pFactory set_pFactory.
Definition addr_pRenderTarget := mkPtrMember pRenderTarget set_pRenderTarget.
Definition addr_pBrush := mkPtrMember pBrush set_pBrush.

(** ** The system calls the program makes *)

Section Program.

Variable env : Env.

Definition GetClientRect (h : HWND) : M RECT :=
  let rc := env_clientRect env in
  call (EvGetClientRect h rc);; ret rc.

Definition InvalidateRect (h : HWND) (lpRect : option RECT) (bErase : bool) : M unit :=
  call (EvInvalidateRect h lpRect bErase).

Definition BeginPaint (h : HWND) : M unit := call (EvBeginPaint h).
Definition EndPaint (h : HWND) : M unit := call (EvEndPaint h).
Definition PostQuitMessage (nExitCode : Z) : M unit := call (EvPostQuitMessage nExitCode).

Definition DefWindowProc (h : HWND) (uMsg : UINT) (wParam lParam : Z) : M LRESULT :=
  call (EvDefWindowProc h uMsg wParam lParam);; ret (env_defWindowProc env).

(** A creation call hands back a new object when it succeeds and [NULL]
    when it fails. *)
Definition created (hr : HRESULT) (o : COMObject) : M (HRESULT * option ptr) :=
  if SUCCEEDED hr then p ← new o; ret (hr, Some p) else ret (hr, None).

Definition D2D1CreateFactory (ty : D2D1_FACTORY_TYPE) : M (HRESULT * option ptr) :=
  let hr := env_hrFactory env in
  call (EvD2D1CreateFactory ty hr);; created hr (ID2D1Factory ty).

(** [IUnknown::Release].  The program never calls [AddRef], so the one
    reference it holds is the last. *)
Definition Release (p : ptr) : M unit :=
  _ ← deref p; call (EvRelease p);; free p.

(** A method call through a factory pointer. *)
Definition factory (self : option ptr) : M ptr :=
  match self with
  | None => fault
  | Some f =>
      o ← deref f;
      match o with
      | ID2D1Factory _ => ret f
      | _ => fault
      end
  end.

(** A method call through a render-target pointer. *)
Definition target (self : option ptr) : M (ptr * HWND * D2D1_SIZE_U) :=
  match self with
  | None => fault
  | Some t =>
      o ← deref t;
      match o with
      | ID2D1HwndRenderTarget h px => ret (t, h, px)
      | _ => fault
      end
  end.

Definition CreateHwndRenderTarget (self : option ptr) (h : HWND) (size : D2D1_SIZE_U)
  : M (HRESULT * option ptr) :=
  f ← factory self;
  let hr := env_hrRenderTarget env in
  call (EvCreateHwndRenderTarget f h size hr);;
  created hr (ID2D1HwndRenderTarget h size).

Definition CreateSolidColorBrush (self : option ptr) (color : D2D1_COLOR_F)
  : M (HRESULT * option ptr) :=
  '(t, _, _) ← target self;
  let hr := env_hrBrush env in
  call (EvCreateSolidColorBrush t color hr);;
  created hr (ID2D1SolidColorBrush t color).

Definition GetSize (self : option ptr) : M D2D1_SIZE_F :=
  '(_, _, px) ← target self; ret (env_dips env px).

Definition Resize_target (self : option ptr) (size : D2D1_SIZE_U) : M unit :=
  '(t, h, _) ← target self;
  call (EvResize t size);; update t (ID2D1HwndRenderTarget h size).

Definition BeginDraw (self : option ptr) : M unit :=
  '(t, _, _) ← target self; call (EvBeginDraw t).

Definition Clear (self : option ptr) (color : D2D1_COLOR_F) : M unit :=
  '(t, _, _) ← target self; call (EvClear t color).

Definition FillEllipse (self : option ptr) (e : D2D1_ELLIPSE) (brush : option ptr) : M unit :=
  '(t, _, _) ← target self; call (EvFillEllipse t e brush).

Definition EndDraw (self : option ptr) : M HRESULT :=
  '(t, _, _) ← target self;
  let hr := env_hrEndDraw env in
  call (EvEndDraw t hr);; ret hr.

(** ** The program *)

Definition SafeRelease (ppT : PtrMember) : M unit :=
  p ← member (load ppT);
  match p with
  | Some q => Release q;; assign (store ppT None)
  | None => ret tt
  end.

Definition CalculateLayout : M unit :=
  rt ← member pRenderTarget;
  match rt with
  | Some _ =>
      size ← GetSize rt;
      let x := fdiv (width size) (FLOAT_of_Z 2) in
      let y := fdiv (height size) (FLOAT_of_Z 2) in
      let radius := min x y in
      assign (set_ellipse (D2D1.Ellipse (D2D1.Point2F x y) radius radius))
  | None => ret tt
  end.

Definition CreateGraphicsResources : M HRESULT :=
  let hr := S_OK in
  rt ← member pRenderTarget;
  match rt with
  | None =>
      h ← member m_hwnd;
      rc ← GetClientRect h;
      let size := D2D1.SizeU (rc_right rc) (rc_bottom rc) in
      f ← member pFactory;
      '(hr, out) ← CreateHwndRenderTarget f h size;
      assign (set_pRenderTarget out);;
      if SUCCEEDED hr then
        let color := D2D1.ColorF (FLOAT_of_Z 1) (FLOAT_of_Z 0) (FLOAT_of_Z 0) in
        rt ← member pRenderTarget;
        '(hr, out) ← CreateSolidColorBrush rt color;
        assign (set_pBrush out);;
        if SUCCEEDED hr then CalculateLayout;; ret hr else ret hr
      else ret hr
  | Some _ => ret hr
  end.

Definition DiscardGraphicsResources : M unit :=
  SafeRelease addr_pRenderTarget;;
  SafeRelease addr_pBrush.

Definition OnPaint : M unit :=
  hr ← CreateGraphicsResources;
  if SUCCEEDED hr then
    h ← member m_hwnd;
    BeginPaint h;;
    rt ← member pRenderTarget;
    BeginDraw rt;;
    Clear rt (D2D1.ColorF_rgb D2D1.BlanchedAlmond);;
    e ← member ellipse;
    br ← member pBrush;
    FillEllipse rt e br;;
    hr ← EndDraw rt;
    (if FAILED hr || (hr =? D2DERR_RECREATE_TARGET)
     then DiscardGraphicsResources
     else ret tt);;
    EndPaint h
  else ret tt.

Definition Resize : M unit :=
  rt ← member pRenderTarget;
  match rt with
  | Some _ =>
      h ← member m_hwnd;
      rc ← GetClientRect h;
      let size := D2D1.SizeU (rc_right rc) (rc_bottom rc) in
      Resize_target rt size;;
      CalculateLayout;;
      InvalidateRect h None false
  | None => ret tt
  end.

Definition HandleMessage (uMsg : UINT) (wParam lParam : Z) : M LRESULT :=
  if uMsg =? WM_CREATE then
    '(hr, out) ← D2D1CreateFactory D2D1_FACTORY_TYPE_SINGLE_THREADED;
    assign (set_pFactory out);;
    if FAILED hr then ret (-1) else ret 0
  else if uMsg =? WM_DESTROY then
    DiscardGraphicsResources;;
    SafeRelease addr_pFactory;;
    PostQuitMessage 0;;
    ret 0
  else if uMsg =? WM_PAINT then
    OnPaint;; ret 0
  else if uMsg =? WM_SIZE then
    Resize;; ret 0
  else
    h ← member m_hwnd;
    DefWindowProc h uMsg wParam lParam.

End Program.

(** ** Message delivery *)

(** The constructor [MainWindow()] sets the three pointers to [NULL] and
    leaves [ellipse] as it finds it; [m_hwnd] is set by the base class
    when the window is created. *)
Definition constructed (h : HWND) (indeterminate : D2D1_ELLIPSE) : World :=
  mkWorld (mkMainWindow h None None None indeterminate) ∅ [].

Record MSG := mkMSG { message : UINT; wParam : Z; lParam : Z }.

(** The window procedure is entered once per message, in order; each
    message comes with the answers the system gives while it is handled. *)
Fixpoint deliver (msgs : list (Env * MSG)) : M unit :=
  match msgs with
  | [] => ret tt
  | (env, m) :: rest =>
      HandleMessage env (message m) (wParam m) (lParam m);; deliver rest
  end.

(** A display at 96 DPI: one device-independent pixel per pixel. *)
Definition dips96 (px : D2D1_SIZE_U) : D2D1_SIZE_F :=
  mkSizeF (FLOAT_of_Z (uwidth px)) (FLOAT_of_Z (uheight px)).

(** Every call succeeds and the client area is 800 by 600. *)
Definition env_ok : Env :=
  mkEnv (mkRECT 0 0 800 600) S_OK S_OK S_OK S_OK dips96 0.

(** ** Vocabulary of the statements *)

(** The half of a [FLOAT], as the program writes it: [v / 2]. *)
Abbreviation half v := (fdiv v (FLOAT_of_Z 2)).

(** The circle inscribed in a rectangle of the given size, centred. *)
Definition inscribed_circle (size : D2D1_SIZE_F) : D2D1_ELLIPSE :=
  let radius := min (half (width size)) (half (height size)) in
  mkEllipse (mkPoint2F (half (width size)) (half (height size))) radius radius.

(** Pure red, opaque. *)
Definition red : D2D1_COLOR_F :=
  mkColorF (FLOAT_of_Z 1) (FLOAT_of_Z 0) (FLOAT_of_Z 0) (FLOAT_of_Z 1).

(** The condition under which [OnPaint] discards the resources. *)
Definition device_lost (hr : HRESULT) : bool :=
  FAILED hr || (hr =? D2DERR_RECREATE_TARGET).

(** The pixel size the program derives from the client rectangle. *)
Definition client_size (env : Env) : D2D1_SIZE_U :=
  D2D1.SizeU (rc_right (env_clientRect env)) (rc_bottom (env_clientRect env)).

(** Every interface pointer the window holds refers to a live object of
    its interface, and a brush it holds was created red. *)
Record wf (w : World) : Prop := mk_wf
  { wf_factory : forall f, pFactory (this w) = Some f ->
      exists ty, heap w !! f = Some (ID2D1Factory ty);
    wf_target : forall t, pRenderTarget (this w) = Some t ->
      exists h px, heap w !! t = Some (ID2D1HwndRenderTarget h px);
    wf_brush : forall b, pBrush (this w) = Some b ->
      exists t, heap w !! b = Some (ID2D1SolidColorBrush t red) }.

(** The non-[NULL] pointers among [ps], in order. *)
Definition held (ps : list (option ptr)) : list ptr := omap id ps.

(** The heap and the log once every pointer of [ps] that is held has
    been released. *)
Definition released (ps : list (option ptr)) (w : World) : World :=
  mkWorld (this w) (foldl (fun hp p => delete p hp) (heap w) (held ps))
    (log w ++ (EvRelease <$> held ps)).

(** The branch of [OnPaint] taken when [CreateGraphicsResources]
    succeeds, standing alone. *)
Definition OnPaint_draw (env : Env) : M unit :=
  h ← member m_hwnd;
  BeginPaint h;;
  rt ← member pRenderTarget;
  BeginDraw rt;;
  Clear rt (D2D1.ColorF_rgb D2D1.BlanchedAlmond);;
  e ← member ellipse;
  br ← member pBrush;
  FillEllipse rt e br;;
  hr ← EndDraw env rt;
  (if FAILED hr || (hr =? D2DERR_RECREATE_TARGET)
   then DiscardGraphicsResources
   else ret tt);;
  EndPaint h.

(** The calls of one frame, up to [EndDraw]. *)
Definition frame (env : Env) (w : World) (t : ptr) : list Call :=
  [EvBeginPaint (m_hwnd (this w)); EvBeginDraw t;
   EvClear t (D2D1.ColorF_rgb D2D1.BlanchedAlmond);
   EvFillEllipse t (ellipse (this w)) (pBrush (this w));
   EvEndDraw t (env_hrEndDraw env)].

(** The interface pointers of the window that are set in [before] and
    [NULL] in [after]. *)
Definition reset_count (before after : MainWindow) : nat :=
  length (filter (fun p : option ptr * option ptr => p.1 <> None /\ p.2 = None)
            (zip [pFactory before; pRenderTarget before; pBrush before]
                 [pFactory after; pRenderTarget after; pBrush after])).

(** What the log shows of an [OnPaint] entered at [w] without a render
    target and left at [w'], [f] being the factory: the render target
    is created first; if that fails nothing follows; if the brush then
    fails nothing is drawn; otherwise the frame is drawn on the new
    target [t] with the new brush [b], neither of which existed at [w]. *)
Definition recreates_before_drawing (env : Env) (f : ptr) (w w' : World) : Prop :=
  let h := m_hwnd (this w) in
  let size := client_size env in
  let creation :=
    [EvGetClientRect h (env_clientRect env);
     EvCreateHwndRenderTarget f h size (env_hrRenderTarget env)] in
  if SUCCEEDED (env_hrRenderTarget env) then
    exists t, heap w !! t = None /\
      if SUCCEEDED (env_hrBrush env) then
        exists b rest, heap w !! b = None /\ t <> b /\
          log w' = log w ++ creation ++
                   [EvCreateSolidColorBrush t red (env_hrBrush env);
                    EvBeginPaint h; EvBeginDraw t;
                    EvClear t (D2D1.ColorF_rgb D2D1.BlanchedAlmond);
                    EvFillEllipse t (inscribed_circle (env_dips env size)) (Some b);
                    EvEndDraw t (env_hrEndDraw env)] ++ rest /\
          (SUCCEEDED (env_hrEndDraw env) = true ->
             pRenderTarget (this w') = Some t /\ pBrush (this w') = Some b /\
             heap w' !! t = Some (ID2D1HwndRenderTarget h size) /\
             heap w' !! b = Some (ID2D1SolidColorBrush t red))
      else
        log w' = log w ++ creation ++
                 [EvCreateSolidColorBrush t red (env_hrBrush env)]
  else
    log w' = log w ++ creation.

(** What [CreateGraphicsResources] has done when it reports success
    from a world [w] without a render target: a new render target of
    the client size and a new red brush on it are in place, and the
    ellipse is laid out for that size. *)
Definition resources_created (env : Env) (w w' : World) : Prop :=
  exists t b,
    heap w !! t = None /\ heap w !! b = None /\ t <> b /\
    pRenderTarget (this w') = Some t /\
    heap w' !! t =
      Some (ID2D1HwndRenderTarget (m_hwnd (this w)) (client_size env)) /\
    pBrush (this w') = Some b /\
    heap w' !! b = Some (ID2D1SolidColorBrush t red) /\
    ellipse (this w') = inscribed_circle (env_dips env (client_size env)) /\
    pFactory (this w') = pFactory (this w) /\
    m_hwnd (this w') = m_hwnd (this w).

(** The resources are complete: where there is a render target there
    is a brush, and the ellipse is a circle. *)
Definition complete (w : World) : Prop :=
  pRenderTarget (this w) <> None ->
  pBrush (this w) <> None /\
  radiusX (ellipse (this w)) = radiusY (ellipse (this w)).

(** ** Concrete runs *)

Definition hwnd0 : HWND := 0x50A2.

(** What happens to lie in the storage of [ellipse] when the window
    object is constructed. *)
Definition garbage : D2D1_ELLIPSE :=
  mkEllipse (mkPoint2F (FLOAT_of_Z 0) (FLOAT_of_Z 0)) (FLOAT_of_Z 1) (FLOAT_of_Z 2).

Definition msg (uMsg : UINT) : MSG := mkMSG uMsg 0 0.

(** The world once [msgs] have been delivered to a new window. *)
Definition after (msgs : list (Env * MSG)) : World :=
  match deliver msgs (constructed hwnd0 garbage) with
  | Some (_, w) => w
  | None => constructed hwnd0 garbage
  end.

(** [CreateSolidColorBrush] fails, everything else succeeds. *)
Definition env_nobrush : Env :=
  mkEnv (mkRECT 0 0 800 600) S_OK S_OK E_OUTOFMEMORY S_OK dips96 0.

(** [EndDraw] reports a lost device. *)
Definition env_lost : Env :=
  mkEnv (mkRECT 0 0 800 600) S_OK S_OK S_OK D2DERR_RECREATE_TARGET dips96 0.

(** The client area has become 1024 by 768. *)
Definition env_resized : Env :=
  mkEnv (mkRECT 0 0 1024 768) S_OK S_OK S_OK S_OK dips96 0.

Definition world_created : World := after [(env_ok, msg WM_CREATE)].

Definition world_painted : World :=
  after [(env_ok, msg WM_CREATE); (env_ok, msg WM_PAINT)].

Definition world_brushless : World :=
  after [(env_ok, msg WM_CREATE); (env_nobrush, msg WM_PAINT)].

(** ** Vocabulary of the further properties *)

(** The brush the window holds was created by the render target it
    holds. *)
Definition brush_of_target (w : World) : Prop :=
  forall b t c,
    pBrush (this w) = Some b ->
    heap w !! b = Some (ID2D1SolidColorBrush t c) ->
    pRenderTarget (this w) = Some t.

(** Every live object is held by the window: nothing has leaked. *)
Definition owned (w : World) : Prop :=
  forall p,
    is_Some (heap w !! p) ->
    p ∈ held [pRenderTarget (this w); pBrush (this w); pFactory (this w)].

(** The layout fits the render target: the target the window holds was
    created for the window's own handle and, when a brush is held too,
    [ellipse] is the circle inscribed in the target's current size.
    [dips] is the conversion from pixels the display applies. *)
Definition in_sync (dips : D2D1_SIZE_U -> D2D1_SIZE_F) (w : World) : Prop :=
  forall t h px,
    pRenderTarget (this w) = Some t ->
    heap w !! t = Some (ID2D1HwndRenderTarget h px) ->
    h = m_hwnd (this w) /\
    (pBrush (this w) <> None -> ellipse (this w) = inscribed_circle (dips px)).

(** The calls by which [CreateGraphicsResources] reaches the system. *)
Definition is_creation_call (c : Call) : Prop :=
  match c with
  | EvGetClientRect _ _
  | EvCreateHwndRenderTarget _ _ _ _
  | EvCreateSolidColorBrush _ _ _ => True
  | _ => False
  end.

Arguments FLOAT_of_Z : simpl never.
Arguments fdiv : simpl never.
Arguments flt : simpl never.
Arguments min : simpl never.

(** * Properties *)

Example one_is_one : FLOAT_of_Z 1 = S754_finite false 8388608 (-23).
Proof. reflexivity. Qed.

Example half_of_800 : fdiv (FLOAT_of_Z 800) (FLOAT_of_Z 2) = FLOAT_of_Z 400.
Proof. vm_compute. reflexivity. Qed.

Example recreate_target_fails : FAILED D2DERR_RECREATE_TARGET = true.
Proof. reflexivity. Qed.

(** ** The order on [FLOAT] and the [min] macro *)

Lemma SFcompare_antisym (u v : spec_float) :
  SFcompare v u = CompOpp <$> SFcompare u v.
Proof.
  destruct u as [s1|s1| |s1 m1 e1], v as [s2|s2| |s2 m2 e2]; simpl;
    try reflexivity;
    try (destruct s1; reflexivity); try (destruct s2; reflexivity);
    try (destruct s1, s2; reflexivity).
  f_equal. destruct s1, s2; try reflexivity;
    rewrite (Z.compare_antisym e1 e2); destruct (e1 ?= e2); simpl;
    try reflexivity;
    rewrite (Pos.compare_cont_antisym m1 m2 Eq); reflexivity.
Qed.

Lemma flt_asym u v : flt u v = true -> flt v u = false.
Proof.
  unfold flt, SFltb. rewrite (SFcompare_antisym u v).
  destruct (SFcompare u v) as [[]|]; simpl; congruence.
Qed.

Lemma flt_irrefl u : flt u u = false.
Proof.
  destruct (flt u u) eqn:E; [|reflexivity].
  pose proof (flt_asym _ _ E). congruence.
Qed.

(** [min u v] is one of its arguments and neither argument is below it. *)
Lemma min_is_least u v :
  (min u v = u \/ min u v = v) /\
  flt u (min u v) = false /\ flt v (min u v) = false.
Proof.
  unfold min. destruct (flt u v) eqn:E.
  - split; [now left|]. split; [apply flt_irrefl | now apply flt_asym].
  - split; [now right|]. split; [exact E | apply flt_irrefl].
Qed.

(** ** Running the program symbolically *)

Ltac unfold_run :=
  unfold mbind, M_bind, bind, ret, member, assign, call, deref, new,
    update, free, fault in *.

Ltac exec :=
  repeat first
    [ progress simpl
    | rewrite lookup_insert_eq
    | match goal with
      | H : _ = Some _ |- _ => rewrite H
      | H : _ = None |- _ => rewrite H
      | H : _ = true |- _ => rewrite H
      | H : _ = false |- _ => rewrite H
      end ].

Lemma fresh_unallocated (hp : gmap ptr COMObject) : hp !! fresh (dom hp) = None.
Proof. apply not_elem_of_dom, is_fresh. Qed.

(** ** [SafeRelease] and [DiscardGraphicsResources] *)

Lemma SafeRelease_null ppT w :
  load ppT (this w) = None -> SafeRelease ppT w = Some (tt, w).
Proof. intros H. unfold SafeRelease. unfold_run. rewrite H. reflexivity. Qed.

Lemma SafeRelease_live ppT w p :
  load ppT (this w) = Some p -> is_Some (heap w !! p) ->
  SafeRelease ppT w =
    Some (tt, mkWorld (store ppT None (this w)) (delete p (heap w))
                (log w ++ [EvRelease p])).
Proof.
  intros H [o Ho]. unfold SafeRelease, Release. unfold_run.
  rewrite H, Ho. reflexivity.
Qed.

Lemma DiscardGraphicsResources_run w :
  wf w ->
  DiscardGraphicsResources w =
    Some (tt, mkWorld (set_pBrush None (set_pRenderTarget None (this w)))
                (heap (released [pRenderTarget (this w); pBrush (this w)] w))
                (log (released [pRenderTarget (this w); pBrush (this w)] w))).
Proof.
  intros [Hf Ht Hb]. destruct w as [[h f t b e] hp lg]. cbn in *.
  unfold DiscardGraphicsResources. unfold mbind, M_bind, bind.
  destruct t as [t|].
  - destruct (Ht t eq_refl) as (h' & px & Hto).
    rewrite (SafeRelease_live addr_pRenderTarget _ t); [| reflexivity | cbn; eauto ].
    destruct b as [b|].
    + destruct (Hb b eq_refl) as (t' & Hbo).
      rewrite (SafeRelease_live addr_pBrush _ b); [| reflexivity | ].
      * cbn. rewrite <- app_assoc. reflexivity.
      * cbn. rewrite lookup_delete_ne; [eauto | congruence].
    + rewrite SafeRelease_null; [| reflexivity]. cbn. reflexivity.
  - rewrite SafeRelease_null; [| reflexivity].
    destruct b as [b|].
    + destruct (Hb b eq_refl) as (t' & Hbo).
      rewrite (SafeRelease_live addr_pBrush _ b); [| reflexivity | cbn; eauto ].
      cbn. reflexivity.
    + rewrite SafeRelease_null; [| reflexivity]. cbn. rewrite app_nil_r.
      reflexivity.
Qed.

(** ** [CalculateLayout] *)

Lemma CalculateLayout_run env w t h px :
  pRenderTarget (this w) = Some t ->
  heap w !! t = Some (ID2D1HwndRenderTarget h px) ->
  CalculateLayout env w =
    Some (tt, mkWorld (set_ellipse (inscribed_circle (env_dips env px)) (this w))
                (heap w) (log w)).
Proof.
  intros Ht Hobj. unfold CalculateLayout, GetSize, target. unfold_run.
  rewrite Ht, Hobj. reflexivity.
Qed.



(** ** [CreateGraphicsResources] *)

Lemma CreateGraphicsResources_existing env w :
  pRenderTarget (this w) <> None ->
  CreateGraphicsResources env w = Some (S_OK, w).
Proof.
  intros H. unfold CreateGraphicsResources. unfold_run.
  destruct (pRenderTarget (this w)); [reflexivity | congruence].
Qed.

Section Create.

Variables (env : Env) (w : World) (f : ptr) (ty : D2D1_FACTORY_TYPE).
Hypothesis Hnull : pRenderTarget (this w) = None.
Hypothesis Hfactory : pFactory (this w) = Some f.
Hypothesis Hlive : heap w !! f = Some (ID2D1Factory ty).

Let h := m_hwnd (this w).
Let size := client_size env.
Let t := fresh (dom (heap w)).
Let heap1 := <[t := ID2D1HwndRenderTarget h size]> (heap w).
Let b := fresh (dom heap1).
Let heap2 := <[b := ID2D1SolidColorBrush t red]> heap1.
Let called : list Call :=
  [EvGetClientRect h (env_clientRect env);
   EvCreateHwndRenderTarget f h size (env_hrRenderTarget env)].

Ltac open_create :=
  unfold CreateGraphicsResources, GetClientRect, CreateHwndRenderTarget,
    CreateSolidColorBrush, CalculateLayout, GetSize, target, factory, created,
    set_pRenderTarget, set_pBrush, set_ellipse; unfold_run.

Lemma CreateGraphicsResources_target_fails :
  SUCCEEDED (env_hrRenderTarget env) = false ->
  CreateGraphicsResources env w =
    Some (env_hrRenderTarget env, mkWorld (this w) (heap w) (log w ++ called)).
Proof.
  intros Hhr. open_create. exec. rewrite <- app_assoc. simpl.
  destruct w as [[] ? ?]; simpl in *. subst. reflexivity.
Qed.

Lemma CreateGraphicsResources_brush_fails :
  SUCCEEDED (env_hrRenderTarget env) = true ->
  SUCCEEDED (env_hrBrush env) = false ->
  CreateGraphicsResources env w =
    Some (env_hrBrush env,
          mkWorld (set_pBrush None (set_pRenderTarget (Some t) (this w))) heap1
            (log w ++ called ++ [EvCreateSolidColorBrush t red (env_hrBrush env)])).
Proof.
  intros HhrT HhrB. open_create. exec. rewrite <- !app_assoc. reflexivity.
Qed.

Lemma CreateGraphicsResources_creates :
  SUCCEEDED (env_hrRenderTarget env) = true ->
  SUCCEEDED (env_hrBrush env) = true ->
  CreateGraphicsResources env w =
    Some (env_hrBrush env,
          mkWorld (set_ellipse (inscribed_circle (env_dips env size))
                     (set_pBrush (Some b) (set_pRenderTarget (Some t) (this w))))
            heap2
            (log w ++ called ++ [EvCreateSolidColorBrush t red (env_hrBrush env)])).
Proof.
  intros HhrT HhrB.
  assert (Hbt : b <> t).
  { intros E. pose proof (fresh_unallocated heap1) as Hn. fold b in Hn.
    rewrite E in Hn. unfold heap1 in Hn. rewrite lookup_insert_eq in Hn.
    discriminate. }
  open_create. exec. fold h size t heap1 b.
  rewrite lookup_insert_ne by exact Hbt.
  unfold heap1. exec. rewrite <- !app_assoc. reflexivity.
Qed.

End Create.

Lemma CreateGraphicsResources_null_factory env w :
  pRenderTarget (this w) = None -> pFactory (this w) = None ->
  CreateGraphicsResources env w = None.
Proof.
  intros Ht Hf. unfold CreateGraphicsResources, GetClientRect,
    CreateHwndRenderTarget, factory. unfold_run. exec. reflexivity.
Qed.

(** ** The invariant *)

Lemma wf_constructed h e : wf (constructed h e).
Proof. split; simpl; intros; discriminate. Qed.

Lemma wf_log t hp l l' : wf (mkWorld t hp l) -> wf (mkWorld t hp l').
Proof. intros [Hf Ht Hb]. split; assumption. Qed.

Lemma insert_fresh_keeps (hp : gmap ptr COMObject) p o o' :
  hp !! p = Some o -> <[fresh (dom hp) := o']> hp !! p = Some o.
Proof.
  intros H. rewrite lookup_insert_ne; [exact H|].
  intros E. rewrite <- E in H. rewrite fresh_unallocated in H. discriminate.
Qed.

Lemma wf_CreateGraphicsResources env w hr w1 :
  wf w -> CreateGraphicsResources env w = Some (hr, w1) -> wf w1.
Proof.
  intros Hwf Hrun.
  destruct (pRenderTarget (this w)) as [t|] eqn:Ht.
  { rewrite CreateGraphicsResources_existing in Hrun by congruence.
    congruence. }
  destruct (pFactory (this w)) as [f|] eqn:Hf.
  2:{ rewrite CreateGraphicsResources_null_factory in Hrun by assumption.
      discriminate. }
  destruct (wf_factory w Hwf f Hf) as [ty Hty].
  destruct Hwf as [Hwf1 Hwf2 Hwf3].
  destruct (SUCCEEDED (env_hrRenderTarget env)) eqn:HT.
  - destruct (SUCCEEDED (env_hrBrush env)) eqn:HB.
    + rewrite (CreateGraphicsResources_creates env w f ty Ht Hf Hty HT HB) in Hrun.
      inversion Hrun; subst; clear Hrun. split; simpl.
      * intros f' Hf'. destruct (Hwf1 f' Hf') as [ty' E]. exists ty'.
        now do 2 apply insert_fresh_keeps.
      * intros t' E. inversion E; subst. do 2 eexists.
        apply insert_fresh_keeps. apply lookup_insert_eq.
      * intros b' E. inversion E; subst. eexists. apply lookup_insert_eq.
    + rewrite (CreateGraphicsResources_brush_fails env w f ty Ht Hf Hty HT HB) in Hrun.
      inversion Hrun; subst; clear Hrun. split; simpl.
      * intros f' Hf'. destruct (Hwf1 f' Hf') as [ty' E]. exists ty'.
        now apply insert_fresh_keeps.
      * intros t' E. inversion E; subst. do 2 eexists. apply lookup_insert_eq.
      * intros b' E. discriminate.
  - rewrite (CreateGraphicsResources_target_fails env w f ty Ht Hf Hty HT) in Hrun.
    inversion Hrun; subst; clear Hrun. destruct w as [tw hp lg].
    split; assumption.
Qed.

(** [CreateGraphicsResources] reports success only with a render
    target in place. *)
Lemma CreateGraphicsResources_success_target env w hr w1 :
  wf w -> CreateGraphicsResources env w = Some (hr, w1) ->
  SUCCEEDED hr = true -> pRenderTarget (this w1) <> None.
Proof.
  intros Hwf Hrun Hhr.
  destruct (pRenderTarget (this w)) as [t|] eqn:Ht.
  { rewrite CreateGraphicsResources_existing in Hrun by congruence.
    inversion Hrun; subst. congruence. }
  destruct (pFactory (this w)) as [f|] eqn:Hf.
  2:{ rewrite CreateGraphicsResources_null_factory in Hrun by assumption.
      discriminate. }
  destruct (wf_factory w Hwf f Hf) as [ty Hty].
  destruct (SUCCEEDED (env_hrRenderTarget env)) eqn:HT.
  - destruct (SUCCEEDED (env_hrBrush env)) eqn:HB.
    + rewrite (CreateGraphicsResources_creates env w f ty Ht Hf Hty HT HB) in Hrun.
      inversion Hrun; subst. simpl. discriminate.
    + rewrite (CreateGraphicsResources_brush_fails env w f ty Ht Hf Hty HT HB) in Hrun.
      inversion Hrun; subst. simpl. discriminate.
  - rewrite (CreateGraphicsResources_target_fails env w f ty Ht Hf Hty HT) in Hrun.
    inversion Hrun; subst. congruence.
Qed.

(** ** [OnPaint] *)

Arguments SafeRelease : simpl never.
Arguments DiscardGraphicsResources : simpl never.
Arguments CalculateLayout : simpl never.
Arguments CreateGraphicsResources : simpl never.

Lemma OnPaint_unfold env :
  OnPaint env =
    (hr ← CreateGraphicsResources env;
     if SUCCEEDED hr then OnPaint_draw env else ret tt).
Proof. reflexivity. Qed.

Lemma device_lost_failed hr : device_lost hr = FAILED hr.
Proof.
  unfold device_lost. destruct (FAILED hr) eqn:E; [reflexivity|]. simpl.
  apply Z.eqb_neq. intros ->. discriminate.
Qed.

Lemma FAILED_SUCCEEDED hr : FAILED hr = negb (SUCCEEDED hr).
Proof. unfold FAILED, SUCCEEDED. lia. Qed.

Lemma OnPaint_draw_run env w t :
  wf w -> pRenderTarget (this w) = Some t ->
  OnPaint_draw env w =
    Some (tt,
          if device_lost (env_hrEndDraw env)
          then mkWorld (set_pBrush None (set_pRenderTarget None (this w)))
                 (heap (released [Some t; pBrush (this w)] w))
                 (log w ++ frame env w t
                    ++ (EvRelease <$> held [Some t; pBrush (this w)])
                    ++ [EvEndPaint (m_hwnd (this w))])
          else mkWorld (this w) (heap w)
                 (log w ++ frame env w t ++ [EvEndPaint (m_hwnd (this w))])).
Proof.
  intros Hwf Ht. destruct (wf_target w Hwf t Ht) as (h & px & Hobj).
  unfold OnPaint_draw, BeginPaint, BeginDraw, Clear, FillEllipse, EndDraw,
    EndPaint, target. unfold_run. exec.
  fold (device_lost (env_hrEndDraw env)).
  destruct (device_lost (env_hrEndDraw env)).
  - rewrite DiscardGraphicsResources_run.
    2:{ destruct w as [tw hp lg]. apply (wf_log tw hp lg). exact Hwf. }
    simpl. rewrite Ht. simpl. f_equal. f_equal. f_equal.
    rewrite <- !app_assoc. reflexivity.
  - simpl. rewrite <- !app_assoc. reflexivity.
Qed.

(** ** [Resize] *)

Lemma Resize_null env w :
  pRenderTarget (this w) = None -> Resize env w = Some (tt, w).
Proof. intros H. unfold Resize. unfold_run. rewrite H. reflexivity. Qed.

Lemma Resize_run env w t h px :
  pRenderTarget (this w) = Some t ->
  heap w !! t = Some (ID2D1HwndRenderTarget h px) ->
  Resize env w =
    Some (tt,
          mkWorld
            (set_ellipse (inscribed_circle (env_dips env (client_size env)))
               (this w))
            (<[t := ID2D1HwndRenderTarget h (client_size env)]> (heap w))
            (log w ++ [EvGetClientRect (m_hwnd (this w)) (env_clientRect env);
                       EvResize t (client_size env);
                       EvInvalidateRect (m_hwnd (this w)) None false])).
Proof.
  intros Ht Hobj.
  unfold Resize, GetClientRect, Resize_target, InvalidateRect, target.
  unfold_run. exec.
  rewrite (CalculateLayout_run env _ t h (client_size env));
    [| exact Ht | apply lookup_insert_eq].
  simpl. rewrite <- !app_assoc. reflexivity.
Qed.

(** ** Releasing *)

Lemma lookup_foldl_delete (ps : list ptr) (hp : gmap ptr COMObject) (p : ptr) :
  foldl (fun hp q => delete q hp) hp ps !! p =
    if decide (p ∈ ps) then None else hp !! p.
Proof.
  revert hp. induction ps as [|q ps IH]; intros hp; simpl.
  - destruct (decide (p ∈ [])) as [Hin|_]; [|reflexivity].
    apply elem_of_nil in Hin. contradiction.
  - rewrite IH. destruct (decide (p ∈ ps)) as [Hin|Hnin].
    + rewrite decide_True by (now apply elem_of_cons; right). reflexivity.
    + destruct (decide (p = q)) as [->|Hne].
      * rewrite decide_True by (apply elem_of_cons; now left).
        apply lookup_delete_eq.
      * rewrite decide_False.
        { now apply lookup_delete_ne. }
        intros [E|E]%elem_of_cons; [congruence | contradiction].
Qed.

Lemma released_gone ps w p :
  p ∈ held ps -> heap (released ps w) !! p = None.
Proof.
  intros Hin. simpl. rewrite lookup_foldl_delete.
  now rewrite decide_True.
Qed.

Lemma released_keeps ps w p :
  p ∉ held ps -> heap (released ps w) !! p = heap w !! p.
Proof.
  intros Hin. simpl. rewrite lookup_foldl_delete.
  now rewrite decide_False.
Qed.

(** The factory is none of the device-dependent resources. *)
Lemma factory_not_resource w f :
  wf w -> pFactory (this w) = Some f ->
  f ∉ held [pRenderTarget (this w); pBrush (this w)].
Proof.
  intros Hwf Hf Hin. destruct (wf_factory w Hwf f Hf) as [ty Hty].
  unfold held in Hin. apply list_elem_of_omap in Hin as (o & Ho & E).
  simpl in E. subst o.
  apply elem_of_cons in Ho as [Ho|Ho].
  - destruct (wf_target w Hwf f (eq_sym Ho)) as (h & px & E). congruence.
  - apply list_elem_of_singleton in Ho.
    destruct (wf_brush w Hwf f (eq_sym Ho)) as (t & E). congruence.
Qed.

(** ** [HandleMessage] *)

Arguments OnPaint : simpl never.
Arguments OnPaint_draw : simpl never.
Arguments Resize : simpl never.

Lemma HandleMessage_WM_PAINT env wp lp :
  HandleMessage env WM_PAINT wp lp = (OnPaint env;; ret 0).
Proof. reflexivity. Qed.

Lemma HandleMessage_WM_SIZE env wp lp :
  HandleMessage env WM_SIZE wp lp = (Resize env;; ret 0).
Proof. reflexivity. Qed.

Lemma HandleMessage_WM_DESTROY env wp lp :
  HandleMessage env WM_DESTROY wp lp =
    (DiscardGraphicsResources;; SafeRelease addr_pFactory;;
     PostQuitMessage 0;; ret 0).
Proof. reflexivity. Qed.

Lemma WM_DESTROY_run env wp lp w :
  wf w ->
  let all := [pRenderTarget (this w); pBrush (this w); pFactory (this w)] in
  HandleMessage env WM_DESTROY wp lp w =
    Some (0, mkWorld
               (set_pFactory None
                  (set_pBrush None (set_pRenderTarget None (this w))))
               (heap (released all w))
               (log (released all w) ++ [EvPostQuitMessage 0])).
Proof.
  intros Hwf all. rewrite HandleMessage_WM_DESTROY.
  unfold mbind, M_bind, bind.
  rewrite DiscardGraphicsResources_run by exact Hwf.
  destruct (pFactory (this w)) as [f|] eqn:Hf.
  - pose proof (factory_not_resource w f Hwf Hf) as Hnot.
    destruct (wf_factory w Hwf f Hf) as [ty Hty].
    rewrite (SafeRelease_live addr_pFactory _ f).
    + unfold PostQuitMessage, call, ret. simpl. subst all.
      destruct (pRenderTarget (this w)), (pBrush (this w)); simpl;
        rewrite <- ?app_assoc; reflexivity.
    + simpl. exact Hf.
    + change (is_Some (heap (released [pRenderTarget (this w); pBrush (this w)] w) !! f)).
      rewrite (released_keeps _ w f Hnot). rewrite Hty. eauto.
  - rewrite SafeRelease_null by (simpl; exact Hf).
    unfold PostQuitMessage, call, ret. simpl. subst all. clear Hwf.
    destruct w as [[hw fw tw bw ew] hp lg]. simpl in *. subst fw.
    destruct tw, bw; simpl; rewrite ?app_nil_r; reflexivity.
Qed.

Lemma OnPaint_run env w hr w1 :
  wf w -> CreateGraphicsResources env w = Some (hr, w1) ->
  OnPaint env w = if SUCCEEDED hr then OnPaint_draw env w1 else Some (tt, w1).
Proof.
  intros Hwf Hrun. rewrite OnPaint_unfold. unfold mbind, M_bind, bind.
  rewrite Hrun. destruct (SUCCEEDED hr); reflexivity.
Qed.

Lemma wf_OnPaint_draw env w w' :
  wf w -> pRenderTarget (this w) <> None ->
  OnPaint_draw env w = Some (tt, w') -> wf w'.
Proof.
  intros Hwf Ht Hrun.
  destruct (pRenderTarget (this w)) as [t|] eqn:E; [|congruence].
  rewrite (OnPaint_draw_run env w t Hwf E) in Hrun.
  inversion Hrun as [Hw']; clear Hrun.
  destruct (device_lost (env_hrEndDraw env)).
  - split; simpl; try discriminate.
    intros f Hf. destruct (wf_factory w Hwf f Hf) as [ty Hty]. exists ty.
    pose proof (factory_not_resource w f Hwf Hf) as Hnot. rewrite E in Hnot.
    rewrite <- Hty. apply (released_keeps _ w f Hnot).
  - destruct w as [tw hp lg]. eapply wf_log. exact Hwf.
Qed.

Lemma wf_OnPaint env w w' :
  wf w -> OnPaint env w = Some (tt, w') -> wf w'.
Proof.
  intros Hwf Hrun.
  destruct (CreateGraphicsResources env w) as [[hr w1]|] eqn:Hc.
  2:{ rewrite OnPaint_unfold in Hrun. unfold mbind, M_bind, bind in Hrun.
      rewrite Hc in Hrun. discriminate. }
  rewrite (OnPaint_run env w hr w1 Hwf Hc) in Hrun.
  pose proof (wf_CreateGraphicsResources env w hr w1 Hwf Hc) as Hwf1.
  destruct (SUCCEEDED hr) eqn:Hhr.
  - eapply wf_OnPaint_draw; [exact Hwf1 | | exact Hrun].
    exact (CreateGraphicsResources_success_target env w hr w1 Hwf Hc Hhr).
  - congruence.
Qed.

Lemma wf_Resize env w w' :
  wf w -> Resize env w = Some (tt, w') -> wf w'.
Proof.
  intros Hwf Hrun.
  destruct (pRenderTarget (this w)) as [t|] eqn:Ht.
  - destruct (wf_target w Hwf t Ht) as (h & px & Hobj).
    rewrite (Resize_run env w t h px Ht Hobj) in Hrun.
    inversion Hrun; subst; clear Hrun. split; simpl.
    + intros f Hf. destruct (wf_factory w Hwf f Hf) as [ty Hty]. exists ty.
      rewrite lookup_insert_ne; [exact Hty | congruence].
    + intros t' Ht'. rewrite Ht in Ht'. inversion Ht'; subst.
      do 2 eexists. apply lookup_insert_eq.
    + intros b Hb. destruct (wf_brush w Hwf b Hb) as [t' Hb']. exists t'.
      rewrite lookup_insert_ne; [exact Hb' | congruence].
  - rewrite Resize_null in Hrun by exact Ht. congruence.
Qed.

(** Every message leaves the pointers of the window sound. *)
Lemma wf_HandleMessage env uMsg wp lp w res w' :
  wf w -> HandleMessage env uMsg wp lp w = Some (res, w') -> wf w'.
Proof.
  intros Hwf Hrun. unfold HandleMessage in Hrun.
  destruct (uMsg =? WM_CREATE) eqn:E1.
  { unfold D2D1CreateFactory, created in Hrun. unfold_run.
    destruct Hwf as [Hf Ht Hb]. simpl in Hrun.
    destruct (SUCCEEDED (env_hrFactory env)); simpl in Hrun;
      destruct (FAILED (env_hrFactory env)); inversion Hrun; subst; clear Hrun;
      split; simpl; try discriminate;
      try (intros f E; inversion E; subst; eexists; apply lookup_insert_eq);
      try (intros t E; destruct (Ht t E) as (h & px & Hobj); exists h, px;
           now apply insert_fresh_keeps);
      try (intros b E; destruct (Hb b E) as (t & Hobj); exists t;
           now apply insert_fresh_keeps);
      assumption. }
  destruct (uMsg =? WM_DESTROY) eqn:E2.
  { apply Z.eqb_eq in E2. subst uMsg.
    pose proof (WM_DESTROY_run env wp lp w Hwf) as Hd. simpl in Hd.
    unfold HandleMessage in Hd. simpl in Hd.
    rewrite Hd in Hrun. inversion Hrun; subst.
    split; simpl; discriminate. }
  destruct (uMsg =? WM_PAINT) eqn:E3.
  { unfold mbind, M_bind, bind, ret in Hrun.
    destruct (OnPaint env w) as [[[] w1]|] eqn:Hp; [|discriminate].
    inversion Hrun; subst. eapply wf_OnPaint; eassumption. }
  destruct (uMsg =? WM_SIZE) eqn:E4.
  { unfold mbind, M_bind, bind, ret in Hrun.
    destruct (Resize env w) as [[[] w1]|] eqn:Hp; [|discriminate].
    inversion Hrun; subst. eapply wf_Resize; eassumption. }
  unfold DefWindowProc in Hrun. unfold_run. inversion Hrun; subst.
  destruct w as [tw hp lg]. eapply wf_log. exact Hwf.
Qed.

(** Whatever messages arrive at a newly constructed window, and
    whatever the system answers, the pointers stay sound. *)
Lemma wf_deliver msgs w w' :
  wf w -> deliver msgs w = Some (tt, w') -> wf w'.
Proof.
  revert w. induction msgs as [|[env m] rest IH]; intros w Hwf Hrun.
  - inversion Hrun; subst. exact Hwf.
  - simpl in Hrun. unfold mbind, M_bind, bind in Hrun.
    destruct (HandleMessage env (message m) (wParam m) (lParam m) w)
      as [[res w1]|] eqn:Hm; [|discriminate].
    eapply IH; [|exact Hrun]. eapply wf_HandleMessage; eassumption.
Qed.

(** ** Painting without a render target *)

Lemma fresh_fresh_unallocated (hp : gmap ptr COMObject) o :
  let t := fresh (dom hp) in
  let b := fresh (dom (<[t := o]> hp)) in
  t <> b /\ hp !! b = None.
Proof.
  intros t b. pose proof (fresh_unallocated (<[t := o]> hp)) as Hn.
  fold b in Hn. assert (Hne : t <> b).
  { intros E. rewrite <- E in Hn. rewrite lookup_insert_eq in Hn. discriminate. }
  split; [exact Hne|]. now rewrite lookup_insert_ne in Hn.
Qed.

Lemma CreateGraphicsResources_keeps env w hr w1 :
  wf w -> CreateGraphicsResources env w = Some (hr, w1) ->
  pFactory (this w1) = pFactory (this w) /\ m_hwnd (this w1) = m_hwnd (this w).
Proof.
  intros Hwf Hrun.
  destruct (pRenderTarget (this w)) as [t|] eqn:Ht.
  { rewrite CreateGraphicsResources_existing in Hrun by congruence.
    inversion Hrun; subst. auto. }
  destruct (pFactory (this w)) as [f|] eqn:Hf.
  2:{ rewrite CreateGraphicsResources_null_factory in Hrun by assumption.
      discriminate. }
  destruct (wf_factory w Hwf f Hf) as [ty Hty].
  destruct (SUCCEEDED (env_hrRenderTarget env)) eqn:HT.
  - destruct (SUCCEEDED (env_hrBrush env)) eqn:HB.
    + rewrite (CreateGraphicsResources_creates env w f ty Ht Hf Hty HT HB) in Hrun.
      inversion Hrun; subst. simpl. auto.
    + rewrite (CreateGraphicsResources_brush_fails env w f ty Ht Hf Hty HT HB) in Hrun.
      inversion Hrun; subst. simpl. auto.
  - rewrite (CreateGraphicsResources_target_fails env w f ty Ht Hf Hty HT) in Hrun.
    inversion Hrun; subst. simpl. auto.
Qed.

Lemma OnPaint_recreates env w f :
  wf w -> pRenderTarget (this w) = None -> pFactory (this w) = Some f ->
  exists w', OnPaint env w = Some (tt, w') /\ recreates_before_drawing env f w w'.
Proof.
  intros Hwf Ht Hf. destruct (wf_factory w Hwf f Hf) as [ty Hty].
  unfold recreates_before_drawing.
  destruct (SUCCEEDED (env_hrRenderTarget env)) eqn:HT.
  - destruct (SUCCEEDED (env_hrBrush env)) eqn:HB.
    + pose proof (CreateGraphicsResources_creates env w f ty Ht Hf Hty HT HB) as Hc.
      pose proof (wf_CreateGraphicsResources env w _ _ Hwf Hc) as Hwf1.
      rewrite (OnPaint_run env w _ _ Hwf Hc), HB.
      rewrite (OnPaint_draw_run env _ (fresh (dom (heap w))) Hwf1 eq_refl).
      destruct (fresh_fresh_unallocated (heap w)
                  (ID2D1HwndRenderTarget (m_hwnd (this w)) (client_size env)))
        as [Hne Hb].
      eexists. split; [reflexivity|].
      exists (fresh (dom (heap w))). split; [apply fresh_unallocated|].
      rewrite device_lost_failed, FAILED_SUCCEEDED.
      destruct (SUCCEEDED (env_hrEndDraw env)) eqn:HE; simpl.
      * eexists _, [_]. split; [exact Hb|]. split; [exact Hne|].
        split; [rewrite <- !app_assoc; reflexivity|].
        intros _. split; [reflexivity|]. split; [reflexivity|].
        split; [|apply lookup_insert_eq].
        rewrite lookup_insert_ne by congruence. apply lookup_insert_eq.
      * eexists _, [_; _; _]. split; [exact Hb|]. split; [exact Hne|].
        split; [rewrite <- !app_assoc; reflexivity|]. discriminate.
    + pose proof (CreateGraphicsResources_brush_fails env w f ty Ht Hf Hty HT HB) as Hc.
      rewrite (OnPaint_run env w _ _ Hwf Hc), HB.
      eexists. split; [reflexivity|].
      exists (fresh (dom (heap w))). split; [apply fresh_unallocated|]. reflexivity.
  - pose proof (CreateGraphicsResources_target_fails env w f ty Ht Hf Hty HT) as Hc.
    rewrite (OnPaint_run env w _ _ Hwf Hc), HT.
    eexists. split; reflexivity.
Qed.

Lemma CreateGraphicsResources_from_null env w f :
  wf w -> pRenderTarget (this w) = None -> pFactory (this w) = Some f ->
  exists hr w',
    CreateGraphicsResources env w = Some (hr, w') /\
    (exists rest,
        log w' = log w ++
                 EvGetClientRect (m_hwnd (this w)) (env_clientRect env)
                 :: EvCreateHwndRenderTarget f (m_hwnd (this w))
                      (client_size env) (env_hrRenderTarget env)
                 :: rest) /\
    (SUCCEEDED hr = true -> resources_created env w w').
Proof.
  intros Hwf Ht Hf. destruct (wf_factory w Hwf f Hf) as [ty Hty].
  destruct (SUCCEEDED (env_hrRenderTarget env)) eqn:HT.
  - destruct (SUCCEEDED (env_hrBrush env)) eqn:HB.
    + rewrite (CreateGraphicsResources_creates env w f ty Ht Hf Hty HT HB).
      do 2 eexists. split; [reflexivity|]. split; [eexists; reflexivity|].
      intros _.
      destruct (fresh_fresh_unallocated (heap w)
                  (ID2D1HwndRenderTarget (m_hwnd (this w)) (client_size env)))
        as [Hne Hb].
      exists (fresh (dom (heap w))). eexists.
      split; [apply fresh_unallocated|]. split; [exact Hb|].
      split; [exact Hne|]. split; [reflexivity|]. simpl. split.
      { rewrite lookup_insert_ne by congruence. apply lookup_insert_eq. }
      split; [reflexivity|]. split; [apply lookup_insert_eq|]. auto.
    + rewrite (CreateGraphicsResources_brush_fails env w f ty Ht Hf Hty HT HB).
      do 2 eexists. split; [reflexivity|]. split; [eexists; reflexivity|].
      congruence.
    - rewrite (CreateGraphicsResources_target_fails env w f ty Ht Hf Hty HT).
      do 2 eexists. split; [reflexivity|]. split; [eexists; reflexivity|].
      congruence.
Qed.

(** ** Concrete worlds *)

Lemma wf_after msgs : wf (after msgs).
Proof.
  unfold after.
  destruct (deliver msgs (constructed hwnd0 garbage)) as [[[] w]|] eqn:E.
  - eapply wf_deliver; [apply wf_constructed | exact E].
  - apply wf_constructed.
Qed.

Example world_painted_members :
  this world_painted =
    mkMainWindow hwnd0 (Some 1%positive) (Some 2%positive) (Some 3%positive)
      (mkEllipse (mkPoint2F (FLOAT_of_Z 400) (FLOAT_of_Z 300))
         (FLOAT_of_Z 300) (FLOAT_of_Z 300)).
Proof. vm_compute. reflexivity. Qed.

Example world_brushless_members :
  this world_brushless =
    mkMainWindow hwnd0 (Some 1%positive) (Some 2%positive) None garbage.
Proof. vm_compute. reflexivity. Qed.

(** [wf] of a closed world, by evaluation. *)
Ltac wf_concrete :=
  split; intros p Hp; vm_compute in Hp; inversion Hp; subst;
  repeat eexists; vm_compute; reflexivity.

(** * The claims *)

(** C1.  [CalculateLayout] leaves everything as it is when
    [pRenderTarget] is [NULL].  Otherwise, for a render target whose
    size is [wd] by [ht], it succeeds and sets [ellipse] to the circle
    with centre [(wd/2, ht/2)] whose two radii are both
    [min(wd/2, ht/2)]: the radius is one of the two half-dimensions and
    neither half-dimension is smaller than it.  No other member, no
    object and no call is added or changed. *)
Theorem CalculateLayout_inscribes_circle (env : Env) (w : World) :
  (pRenderTarget (this w) = None -> CalculateLayout env w = Some (tt, w)) /\
  (forall t h px wd ht,
      pRenderTarget (this w) = Some t ->
      heap w !! t = Some (ID2D1HwndRenderTarget h px) ->
      env_dips env px = mkSizeF wd ht ->
      let radius := min (half wd) (half ht) in
      CalculateLayout env w =
        Some (tt, mkWorld
                    (set_ellipse
                       (mkEllipse (mkPoint2F (half wd) (half ht)) radius radius)
                       (this w))
                    (heap w) (log w)) /\
      (radius = half wd \/ radius = half ht) /\
      flt (half wd) radius = false /\ flt (half ht) radius = false).
Proof.
  split.
  - intros Hnull. unfold CalculateLayout. unfold_run. rewrite Hnull.
    reflexivity.
  - intros t h px wd ht Ht Hobj Hsize radius. split.
    + unfold CalculateLayout, GetSize, target. unfold_run.
      rewrite Ht, Hobj. cbn. rewrite Hsize. reflexivity.
    + apply min_is_least.
Qed.

Lemma CalculateLayout_inscribes_circle_witness :
  pRenderTarget (this world_created) = None /\
  CalculateLayout env_ok world_created = Some (tt, world_created) /\
  pRenderTarget (this world_painted) = Some 2%positive /\
  heap world_painted !! 2%positive =
    Some (ID2D1HwndRenderTarget hwnd0 (mkSizeU 800 600)) /\
  env_dips env_ok (mkSizeU 800 600) =
    mkSizeF (FLOAT_of_Z 800) (FLOAT_of_Z 600) /\
  let radius := min (half (FLOAT_of_Z 800)) (half (FLOAT_of_Z 600)) in
  CalculateLayout env_ok world_painted =
    Some (tt, mkWorld
                (set_ellipse
                   (mkEllipse
                      (mkPoint2F (half (FLOAT_of_Z 800)) (half (FLOAT_of_Z 600)))
                      radius radius)
                   (this world_painted))
                (heap world_painted) (log world_painted)) /\
  (radius = half (FLOAT_of_Z 800) \/ radius = half (FLOAT_of_Z 600)) /\
  flt (half (FLOAT_of_Z 800)) radius = false /\
  flt (half (FLOAT_of_Z 600)) radius = false.
Proof.
  assert (H1 : pRenderTarget (this world_created) = None)
    by (vm_compute; reflexivity).
  assert (H2 : pRenderTarget (this world_painted) = Some 2%positive)
    by (vm_compute; reflexivity).
  assert (H3 : heap world_painted !! 2%positive =
                 Some (ID2D1HwndRenderTarget hwnd0 (mkSizeU 800 600)))
    by (vm_compute; reflexivity).
  assert (H4 : env_dips env_ok (mkSizeU 800 600) =
                 mkSizeF (FLOAT_of_Z 800) (FLOAT_of_Z 600))
    by reflexivity.
  split; [exact H1|].
  split; [exact (proj1 (CalculateLayout_inscribes_circle env_ok world_created) H1)|].
  split; [exact H2|]. split; [exact H3|]. split; [exact H4|].
  exact (proj2 (CalculateLayout_inscribes_circle env_ok world_painted)
           _ _ _ _ _ H2 H3 H4).
Defined.

Example inscribed_800_600 :
  inscribed_circle (mkSizeF (FLOAT_of_Z 800) (FLOAT_of_Z 600)) =
    mkEllipse (mkPoint2F (FLOAT_of_Z 400) (FLOAT_of_Z 300))
      (FLOAT_of_Z 300) (FLOAT_of_Z 300).
Proof. vm_compute. reflexivity. Qed.

(** A target taller than wide: the radius is half the width. *)
Example inscribed_600_800 :
  inscribed_circle (mkSizeF (FLOAT_of_Z 600) (FLOAT_of_Z 800)) =
    mkEllipse (mkPoint2F (FLOAT_of_Z 300) (FLOAT_of_Z 400))
      (FLOAT_of_Z 300) (FLOAT_of_Z 300).
Proof. vm_compute. reflexivity. Qed.

(** C10.  [DiscardGraphicsResources] is idempotent.  On a window whose
    pointers are sound the first call succeeds and leaves both
    [pRenderTarget] and [pBrush] [NULL]; a second call then succeeds and
    returns the very same world: no call to [Release] is logged, no
    object is freed, no member changes. *)
Theorem DiscardGraphicsResources_idempotent (w : World) :
  wf w ->
  exists w1,
    DiscardGraphicsResources w = Some (tt, w1) /\
    pRenderTarget (this w1) = None /\ pBrush (this w1) = None /\
    DiscardGraphicsResources w1 = Some (tt, w1).
Proof.
  intros Hwf. eexists. split; [apply DiscardGraphicsResources_run, Hwf|].
  split; [reflexivity|]. split; [reflexivity|].
  unfold DiscardGraphicsResources. unfold mbind, M_bind, bind.
  rewrite SafeRelease_null by reflexivity.
  rewrite SafeRelease_null by reflexivity. reflexivity.
Qed.

Lemma DiscardGraphicsResources_idempotent_witness :
  wf world_painted /\
  exists w1,
    DiscardGraphicsResources world_painted = Some (tt, w1) /\
    pRenderTarget (this w1) = None /\ pBrush (this w1) = None /\
    DiscardGraphicsResources w1 = Some (tt, w1).
Proof.
  split; [wf_concrete|].
  apply (DiscardGraphicsResources_idempotent world_painted). wf_concrete.
Defined.

(** C6.  On [WM_DESTROY], for a window whose pointers are sound,
    [HandleMessage] returns 0 having called [Release] once on each of
    [pRenderTarget], [pBrush] and [pFactory] that is held, in that
    order, and then [PostQuitMessage(0)]; afterwards all three members
    are [NULL] and none of the released objects is left. *)
Theorem WM_DESTROY_releases_everything (env : Env) (wp lp : Z) (w : World) :
  wf w ->
  let all := [pRenderTarget (this w); pBrush (this w); pFactory (this w)] in
  exists w',
    HandleMessage env WM_DESTROY wp lp w = Some (0, w') /\
    pRenderTarget (this w') = None /\ pBrush (this w') = None /\
    pFactory (this w') = None /\
    log w' = log w ++ (EvRelease <$> held all) ++ [EvPostQuitMessage 0] /\
    (forall p, p ∈ held all -> heap w' !! p = None).
Proof.
  intros Hwf all. eexists. split; [apply WM_DESTROY_run, Hwf|].
  do 3 (split; [reflexivity|]). split.
  - unfold released, log. rewrite <- app_assoc. reflexivity.
  - intros p Hp. apply (released_gone _ w p Hp).
Qed.

Lemma WM_DESTROY_releases_everything_witness :
  wf world_painted /\
  exists w',
    HandleMessage env_ok WM_DESTROY 0 0 world_painted = Some (0, w') /\
    pRenderTarget (this w') = None /\ pBrush (this w') = None /\
    pFactory (this w') = None /\
    log w' = log world_painted ++
             (EvRelease <$> [2; 3; 1]%positive) ++ [EvPostQuitMessage 0] /\
    (forall p, p ∈ [2; 3; 1]%positive -> heap w' !! p = None).
Proof.
  split; [wf_concrete|].
  apply (WM_DESTROY_releases_everything env_ok 0 0 world_painted). wf_concrete.
Defined.


(** C5.  [CreateGraphicsResources] is lazy.  With a render target in
    place it returns [S_OK] and the world is exactly as before: no
    member, no object and no call differs.  Only without one (and with
    a sound window that has its factory) does it go to the system: it
    asks for the client rectangle and for a render target, and when it
    reports success a new render target, a new red brush and the
    layout for the client size are in place. *)
Theorem CreateGraphicsResources_lazy (env : Env) (w : World) :
  (pRenderTarget (this w) <> None ->
   CreateGraphicsResources env w = Some (S_OK, w)) /\
  (forall f,
      wf w -> pRenderTarget (this w) = None -> pFactory (this w) = Some f ->
      exists hr w',
        CreateGraphicsResources env w = Some (hr, w') /\
        (exists rest,
            log w' = log w ++
                     EvGetClientRect (m_hwnd (this w)) (env_clientRect env)
                     :: EvCreateHwndRenderTarget f (m_hwnd (this w))
                          (client_size env) (env_hrRenderTarget env)
                     :: rest) /\
        (SUCCEEDED hr = true -> resources_created env w w')).
Proof.
  split.
  - apply CreateGraphicsResources_existing.
  - intros f. apply CreateGraphicsResources_from_null.
Qed.

Lemma CreateGraphicsResources_lazy_witness :
  (pRenderTarget (this world_painted) <> None /\
   CreateGraphicsResources env_resized world_painted = Some (S_OK, world_painted)) /\
  (wf world_created /\ pRenderTarget (this world_created) = None /\
   pFactory (this world_created) = Some 1%positive /\
   exists hr w',
     CreateGraphicsResources env_ok world_created = Some (hr, w') /\
     (exists rest,
         log w' = log world_created ++
                  EvGetClientRect hwnd0 (mkRECT 0 0 800 600)
                  :: EvCreateHwndRenderTarget 1%positive hwnd0 (mkSizeU 800 600) S_OK
                  :: rest) /\
     (SUCCEEDED hr = true -> resources_created env_ok world_created w')).
Proof.
  split.
  - assert (H : pRenderTarget (this world_painted) <> None)
      by (vm_compute; discriminate).
    split; [exact H|].
    exact (proj1 (CreateGraphicsResources_lazy env_resized world_painted) H).
  - assert (Hwf : wf world_created) by wf_concrete.
    assert (Ht : pRenderTarget (this world_created) = None)
      by (vm_compute; reflexivity).
    assert (Hf : pFactory (this world_created) = Some 1%positive)
      by (vm_compute; reflexivity).
    split; [exact Hwf|]. split; [exact Ht|]. split; [exact Hf|].
    exact (proj2 (CreateGraphicsResources_lazy env_ok world_created)
             1%positive Hwf Ht Hf).
Defined.

(** ** Device loss *)

(** What [OnPaint] leaves behind once [CreateGraphicsResources] has
    succeeded at [w0]. *)
Lemma OnPaint_outcome env w hr w0 :
  wf w -> CreateGraphicsResources env w = Some (hr, w0) ->
  SUCCEEDED hr = true ->
  exists t,
    pRenderTarget (this w0) = Some t /\ wf w0 /\
    OnPaint env w =
      Some (tt,
            if device_lost (env_hrEndDraw env)
            then mkWorld (set_pBrush None (set_pRenderTarget None (this w0)))
                   (heap (released [Some t; pBrush (this w0)] w0))
                   (log w0 ++ frame env w0 t
                      ++ (EvRelease <$> held [Some t; pBrush (this w0)])
                      ++ [EvEndPaint (m_hwnd (this w0))])
            else mkWorld (this w0) (heap w0)
                   (log w0 ++ frame env w0 t ++ [EvEndPaint (m_hwnd (this w0))])).
Proof.
  intros Hwf Hc Hhr.
  pose proof (wf_CreateGraphicsResources env w hr w0 Hwf Hc) as Hwf0.
  pose proof (CreateGraphicsResources_success_target env w hr w0 Hwf Hc Hhr) as Ht.
  destruct (pRenderTarget (this w0)) as [t|] eqn:Et; [|congruence].
  exists t. split; [reflexivity|]. split; [exact Hwf0|].
  rewrite (OnPaint_run env w hr w0 Hwf Hc), Hhr.
  apply OnPaint_draw_run; assumption.
Qed.

Lemma device_lost_cases hr :
  (FAILED hr = true \/ hr = D2DERR_RECREATE_TARGET) <-> device_lost hr = true.
Proof.
  unfold device_lost. rewrite orb_true_iff, Z.eqb_eq. reflexivity.
Qed.

(** C3.  Let [OnPaint] get past [CreateGraphicsResources] with success.
    If [EndDraw] then succeeds, the members and the objects are as
    [CreateGraphicsResources] left them: the resources are kept.  If
    [EndDraw] fails, or returns [D2DERR_RECREATE_TARGET], both
    [pRenderTarget] and [pBrush] are [NULL] afterwards and what they
    pointed to has been released; and the next [OnPaint], whatever the
    system answers, first creates a render target and a brush and
    draws only if both creations succeed, on the new target with the
    new brush. *)
Theorem OnPaint_device_loss_recovery
    (env env' : Env) (w w0 : World) (hr : HRESULT) (f : ptr) :
  wf w -> pFactory (this w) = Some f ->
  CreateGraphicsResources env w = Some (hr, w0) -> SUCCEEDED hr = true ->
  exists w1,
    OnPaint env w = Some (tt, w1) /\
    (SUCCEEDED (env_hrEndDraw env) = true ->
     this w1 = this w0 /\ heap w1 = heap w0) /\
    (FAILED (env_hrEndDraw env) = true \/
     env_hrEndDraw env = D2DERR_RECREATE_TARGET ->
     pRenderTarget (this w1) = None /\ pBrush (this w1) = None /\
     (forall p, p ∈ held [pRenderTarget (this w0); pBrush (this w0)] ->
                EvRelease p ∈ log w1 /\ heap w1 !! p = None) /\
     exists w2,
       OnPaint env' w1 = Some (tt, w2) /\
       recreates_before_drawing env' f w1 w2).
Proof.
  intros Hwf Hf Hc Hhr.
  destruct (OnPaint_outcome env w hr w0 Hwf Hc Hhr) as (t & Ht & Hwf0 & Hrun).
  destruct (CreateGraphicsResources_keeps env w hr w0 Hwf Hc) as [Hf0 _].
  eexists. split; [exact Hrun|].
  rewrite device_lost_cases, device_lost_failed, FAILED_SUCCEEDED.
  destruct (SUCCEEDED (env_hrEndDraw env)) eqn:HE; cbn [negb].
  - split; [auto | discriminate].
  - split; [discriminate|]. intros _.
    split; [reflexivity|]. split; [reflexivity|]. split.
    + rewrite Ht. intros p Hp. split.
      * cbn [log]. rewrite !elem_of_app. right. right. left.
        apply list_elem_of_fmap. eauto.
      * apply (released_gone _ w0 p Hp).
    + apply OnPaint_recreates; [|reflexivity|simpl; congruence].
      assert (Hlost : device_lost (env_hrEndDraw env) = true).
      { rewrite device_lost_failed, FAILED_SUCCEEDED, HE. reflexivity. }
      rewrite Hlost in Hrun. eapply wf_OnPaint; [exact Hwf | exact Hrun].
Qed.

Lemma OnPaint_device_loss_recovery_witness :
  wf world_painted /\
  pFactory (this world_painted) = Some 1%positive /\
  CreateGraphicsResources env_lost world_painted = Some (S_OK, world_painted) /\
  SUCCEEDED S_OK = true /\
  exists w1,
    OnPaint env_lost world_painted = Some (tt, w1) /\
    (SUCCEEDED (env_hrEndDraw env_lost) = true ->
     this w1 = this world_painted /\ heap w1 = heap world_painted) /\
    (FAILED (env_hrEndDraw env_lost) = true \/
     env_hrEndDraw env_lost = D2DERR_RECREATE_TARGET ->
     pRenderTarget (this w1) = None /\ pBrush (this w1) = None /\
     (forall p,
         p ∈ held [pRenderTarget (this world_painted); pBrush (this world_painted)] ->
         EvRelease p ∈ log w1 /\ heap w1 !! p = None) /\
     exists w2,
       OnPaint env_ok w1 = Some (tt, w2) /\
       recreates_before_drawing env_ok 1%positive w1 w2).
Proof.
  assert (Hwf : wf world_painted) by wf_concrete.
  assert (Hf : pFactory (this world_painted) = Some 1%positive)
    by (vm_compute; reflexivity).
  assert (Hc : CreateGraphicsResources env_lost world_painted
               = Some (S_OK, world_painted))
    by (vm_compute; reflexivity).
  assert (Hhr : SUCCEEDED S_OK = true) by reflexivity.
  split; [exact Hwf|]. split; [exact Hf|]. split; [exact Hc|].
  split; [exact Hhr|].
  exact (OnPaint_device_loss_recovery env_lost env_ok world_painted
           world_painted S_OK 1%positive Hwf Hf Hc Hhr).
Defined.

(** C7, as stated, fails.  After a first paint the window holds a render
    target and a brush; when [EndDraw] then reports a lost device, the
    branch resets two pointers, not one. *)
Lemma device_loss_resets_two_pointers :
  exists w1,
    device_lost (env_hrEndDraw env_lost) = true /\
    OnPaint env_lost world_painted = Some (tt, w1) /\
    pRenderTarget (this world_painted) = Some 2%positive /\
    pBrush (this world_painted) = Some 3%positive /\
    pRenderTarget (this w1) = None /\ pBrush (this w1) = None /\
    reset_count (this world_painted) (this w1) = 2%nat.
Proof.
  eexists. split; [reflexivity|]. split; [vm_compute; reflexivity|].
  repeat split.
Qed.

(** C7, amended.  When the device-loss branch of [OnPaint] runs, both
    [pRenderTarget] and [pBrush] are reset to [NULL] and no other member
    of the window changes: [m_hwnd], [pFactory] and [ellipse] are as
    [CreateGraphicsResources] left them.  With a brush held that is two
    pointers reset.  A later [CreateGraphicsResources] that reports
    success has put a new render target and a new brush in place. *)
Theorem OnPaint_device_loss_resets_both
    (env env' : Env) (w w0 : World) (hr : HRESULT) (f : ptr) :
  wf w -> pFactory (this w) = Some f ->
  CreateGraphicsResources env w = Some (hr, w0) -> SUCCEEDED hr = true ->
  device_lost (env_hrEndDraw env) = true ->
  exists w1,
    OnPaint env w = Some (tt, w1) /\
    this w1 = set_pBrush None (set_pRenderTarget None (this w0)) /\
    (pBrush (this w0) <> None -> reset_count (this w0) (this w1) = 2%nat) /\
    exists hr' w2,
      CreateGraphicsResources env' w1 = Some (hr', w2) /\
      (SUCCEEDED hr' = true -> resources_created env' w1 w2).
Proof.
  intros Hwf Hf Hc Hhr Hlost.
  destruct (OnPaint_outcome env w hr w0 Hwf Hc Hhr) as (t & Ht & Hwf0 & Hrun).
  destruct (CreateGraphicsResources_keeps env w hr w0 Hwf Hc) as [Hf0 _].
  rewrite Hlost in Hrun.
  eexists. split; [exact Hrun|]. split; [reflexivity|]. split.
  - intros Hb. unfold reset_count. cbn [this].
    destruct (this w0) as [h0 f0 t0 b0 e0]. simpl in *. subst t0.
    destruct b0 as [b0|]; [|congruence].
    rewrite Hf0, Hf. reflexivity.
  - destruct (CreateGraphicsResources_from_null env' _ f
                (wf_OnPaint env w _ Hwf Hrun) eq_refl
                (eq_trans Hf0 Hf))
      as (hr' & w2 & Hc' & _ & Hok).
    exists hr', w2. split; [exact Hc' | exact Hok].
Qed.

Lemma OnPaint_device_loss_resets_both_witness :
  wf world_painted /\
  pFactory (this world_painted) = Some 1%positive /\
  CreateGraphicsResources env_lost world_painted = Some (S_OK, world_painted) /\
  SUCCEEDED S_OK = true /\
  device_lost (env_hrEndDraw env_lost) = true /\
  exists w1,
    OnPaint env_lost world_painted = Some (tt, w1) /\
    this w1 = set_pBrush None (set_pRenderTarget None (this world_painted)) /\
    (pBrush (this world_painted) <> None ->
     reset_count (this world_painted) (this w1) = 2%nat) /\
    exists hr' w2,
      CreateGraphicsResources env_ok w1 = Some (hr', w2) /\
      (SUCCEEDED hr' = true -> resources_created env_ok w1 w2).
Proof.
  assert (Hwf : wf world_painted) by wf_concrete.
  assert (Hf : pFactory (this world_painted) = Some 1%positive)
    by (vm_compute; reflexivity).
  assert (Hc : CreateGraphicsResources env_lost world_painted
               = Some (S_OK, world_painted))
    by (vm_compute; reflexivity).
  assert (Hhr : SUCCEEDED S_OK = true) by reflexivity.
  assert (Hlost : device_lost (env_hrEndDraw env_lost) = true) by reflexivity.
  split; [exact Hwf|]. split; [exact Hf|]. split; [exact Hc|].
  split; [exact Hhr|]. split; [exact Hlost|].
  exact (OnPaint_device_loss_resets_both env_lost env_ok world_painted
           world_painted S_OK 1%positive Hwf Hf Hc Hhr Hlost).
Defined.

(** ** Resizing *)

(** C4, as stated, fails.  The [WM_SIZE] that arrives before the first
    paint finds no render target: [HandleMessage] returns 0 and the
    world is what it was, so no layout is computed, no render target is
    resized and no repaint is requested. *)
Lemma WM_SIZE_before_first_paint_does_nothing :
  pRenderTarget (this world_created) = None /\
  log world_created = [EvD2D1CreateFactory D2D1_FACTORY_TYPE_SINGLE_THREADED S_OK] /\
  ellipse (this world_created) = garbage /\
  HandleMessage env_resized WM_SIZE 0 0 world_created = Some (0, world_created).
Proof. repeat split. Qed.

(** C4, amended.  A [WM_SIZE] received while a render target exists
    reads the client rectangle, resizes the render target to it,
    recomputes the circle for the size the target then reports, and
    invalidates the whole client area without erasing; [HandleMessage]
    returns 0.  A [WM_SIZE] received while [pRenderTarget] is [NULL]
    changes nothing. *)
Theorem WM_SIZE_relayout (env : Env) (wp lp : Z) (w : World) :
  (pRenderTarget (this w) = None ->
   HandleMessage env WM_SIZE wp lp w = Some (0, w)) /\
  (forall t h px,
      pRenderTarget (this w) = Some t ->
      heap w !! t = Some (ID2D1HwndRenderTarget h px) ->
      HandleMessage env WM_SIZE wp lp w =
        Some (0,
              mkWorld
                (set_ellipse (inscribed_circle (env_dips env (client_size env)))
                   (this w))
                (<[t := ID2D1HwndRenderTarget h (client_size env)]> (heap w))
                (log w ++
                 [EvGetClientRect (m_hwnd (this w)) (env_clientRect env);
                  EvResize t (client_size env);
                  EvInvalidateRect (m_hwnd (this w)) None false]))).
Proof.
  rewrite HandleMessage_WM_SIZE. unfold mbind, M_bind, bind, ret. split.
  - intros Ht. rewrite Resize_null by exact Ht. reflexivity.
  - intros t h px Ht Hobj. rewrite (Resize_run env w t h px Ht Hobj).
    reflexivity.
Qed.

Lemma WM_SIZE_relayout_witness :
  pRenderTarget (this world_created) = None /\
  HandleMessage env_resized WM_SIZE 0 0 world_created = Some (0, world_created) /\
  pRenderTarget (this world_painted) = Some 2%positive /\
  heap world_painted !! 2%positive =
    Some (ID2D1HwndRenderTarget hwnd0 (mkSizeU 800 600)) /\
  HandleMessage env_resized WM_SIZE 0 0 world_painted =
    Some (0,
          mkWorld
            (set_ellipse (inscribed_circle (mkSizeF (FLOAT_of_Z 1024) (FLOAT_of_Z 768)))
               (this world_painted))
            (<[2%positive := ID2D1HwndRenderTarget hwnd0 (mkSizeU 1024 768)]>
               (heap world_painted))
            (log world_painted ++
             [EvGetClientRect hwnd0 (mkRECT 0 0 1024 768);
              EvResize 2%positive (mkSizeU 1024 768);
              EvInvalidateRect hwnd0 None false])).
Proof.
  assert (H1 : pRenderTarget (this world_created) = None)
    by (vm_compute; reflexivity).
  assert (H2 : pRenderTarget (this world_painted) = Some 2%positive)
    by (vm_compute; reflexivity).
  assert (H3 : heap world_painted !! 2%positive =
                 Some (ID2D1HwndRenderTarget hwnd0 (mkSizeU 800 600)))
    by (vm_compute; reflexivity).
  split; [exact H1|].
  split; [exact (proj1 (WM_SIZE_relayout env_resized 0 0 world_created) H1)|].
  split; [exact H2|]. split; [exact H3|].
  exact (proj2 (WM_SIZE_relayout env_resized 0 0 world_painted) _ _ _ H2 H3).
Defined.

(** ** A brush that could not be created *)

Example world_brushless_delivered :
  deliver [(env_ok, msg WM_CREATE); (env_nobrush, msg WM_PAINT)]
    (constructed hwnd0 garbage) = Some (tt, world_brushless).
Proof. vm_compute. reflexivity. Qed.

(** C2 at the failing input.  The first paint creates the render target
    but not the brush, and draws nothing.  At the second paint
    [CreateGraphicsResources] returns [S_OK] without creating anything,
    and the frame is cleared and then filled with a [NULL] brush: no
    brush, red or other, was ever created. *)
Theorem OnPaint_after_brush_failure_fills_without_brush :
  pBrush (this world_brushless) = None /\
  (forall t c, EvCreateSolidColorBrush t c S_OK ∉ log world_brushless) /\
  CreateGraphicsResources env_ok world_brushless = Some (S_OK, world_brushless) /\
  exists w',
    OnPaint env_ok world_brushless = Some (tt, w') /\
    log w' = log world_brushless ++
             [EvBeginPaint hwnd0; EvBeginDraw 2%positive;
              EvClear 2%positive (D2D1.ColorF_rgb D2D1.BlanchedAlmond);
              EvFillEllipse 2%positive garbage None;
              EvEndDraw 2%positive S_OK; EvEndPaint hwnd0].
Proof.
  split; [reflexivity|]. split.
  - intros t c Hin. vm_compute in Hin.
    repeat (apply elem_of_cons in Hin as [Hin|Hin]; [discriminate|]).
    now apply elem_of_nil in Hin.
  - split; [vm_compute; reflexivity|].
    eexists. split; vm_compute; reflexivity.
Qed.

(** C9 at the failing input.  Create the window, let the first paint
    lose its brush, paint again: [FillEllipse] is called with the
    ellipse the constructor left indeterminate, whose radii differ;
    [CalculateLayout] has never run. *)
Theorem brush_failure_then_paint_fills_indeterminate_ellipse :
  exists w',
    deliver [(env_ok, msg WM_CREATE); (env_nobrush, msg WM_PAINT);
             (env_ok, msg WM_PAINT)]
      (constructed hwnd0 garbage) = Some (tt, w') /\
    EvFillEllipse 2%positive garbage None ∈ log w' /\
    ellipse (this w') = garbage /\
    radiusX garbage <> radiusY garbage.
Proof.
  eexists. split; [vm_compute; reflexivity|]. split.
  - do 7 apply list_elem_of_further. apply list_elem_of_here.
  - split; [reflexivity | discriminate].
Qed.

(** ** What holds as long as the brush can be created *)

Lemma complete_constructed h e : complete (constructed h e).
Proof. intros H. contradiction. Qed.

Lemma complete_CreateGraphicsResources env w hr w0 :
  wf w -> complete w ->
  CreateGraphicsResources env w = Some (hr, w0) ->
  SUCCEEDED hr = true \/ SUCCEEDED (env_hrBrush env) = true ->
  complete w0.
Proof.
  intros Hwf Hcomplete Hrun Hok.
  destruct (pRenderTarget (this w)) as [t|] eqn:Ht.
  { rewrite CreateGraphicsResources_existing in Hrun by congruence.
    inversion Hrun; subst. exact Hcomplete. }
  destruct (pFactory (this w)) as [f|] eqn:Hf.
  2:{ rewrite CreateGraphicsResources_null_factory in Hrun by assumption.
      discriminate. }
  destruct (wf_factory w Hwf f Hf) as [ty Hty].
  destruct (SUCCEEDED (env_hrRenderTarget env)) eqn:HT.
  - destruct (SUCCEEDED (env_hrBrush env)) eqn:HB.
    + rewrite (CreateGraphicsResources_creates env w f ty Ht Hf Hty HT HB) in Hrun.
      inversion Hrun; subst. intros _. split; [discriminate | reflexivity].
    + rewrite (CreateGraphicsResources_brush_fails env w f ty Ht Hf Hty HT HB) in Hrun.
      inversion Hrun; subst. destruct Hok; congruence.
  - rewrite (CreateGraphicsResources_target_fails env w f ty Ht Hf Hty HT) in Hrun.
    inversion Hrun; subst. exact Hcomplete.
Qed.

(** From complete resources, a paint that gets past
    [CreateGraphicsResources] clears the target to BlanchedAlmond and
    then fills a circle with a live brush that was created red. *)
Lemma OnPaint_complete_draws_red_circle env w hr w0 :
  wf w -> complete w ->
  CreateGraphicsResources env w = Some (hr, w0) -> SUCCEEDED hr = true ->
  exists t b target e rest w',
    pRenderTarget (this w0) = Some t /\ pBrush (this w0) = Some b /\
    heap w0 !! b = Some (ID2D1SolidColorBrush target red) /\
    red = mkColorF (FLOAT_of_Z 1) (FLOAT_of_Z 0) (FLOAT_of_Z 0) (FLOAT_of_Z 1) /\
    radiusX e = radiusY e /\
    OnPaint env w = Some (tt, w') /\
    log w' = log w0 ++
             [EvBeginPaint (m_hwnd (this w)); EvBeginDraw t;
              EvClear t (D2D1.ColorF_rgb D2D1.BlanchedAlmond);
              EvFillEllipse t e (Some b);
              EvEndDraw t (env_hrEndDraw env)] ++ rest.
Proof.
  intros Hwf Hcomplete Hc Hhr.
  destruct (OnPaint_outcome env w hr w0 Hwf Hc Hhr) as (t & Ht & Hwf0 & Hrun).
  destruct (CreateGraphicsResources_keeps env w hr w0 Hwf Hc) as [_ Hh].
  destruct (complete_CreateGraphicsResources env w hr w0 Hwf Hcomplete Hc
              (or_introl Hhr)) as [Hb Hcircle]; [congruence|].
  destruct (pBrush (this w0)) as [b|] eqn:Eb; [|congruence].
  destruct (wf_brush w0 Hwf0 b Eb) as [target Hobj].
  exists t, b, target, (ellipse (this w0)).
  exists (if device_lost (env_hrEndDraw env)
          then (EvRelease <$> held [Some t; Some b]) ++ [EvEndPaint (m_hwnd (this w0))]
          else [EvEndPaint (m_hwnd (this w0))]).
  eexists. split; [exact Ht|]. split; [reflexivity|].
  split; [exact Hobj|]. split; [reflexivity|]. split; [exact Hcircle|].
  split; [exact Hrun|].
  unfold frame. rewrite Eb, Hh.
  destruct (device_lost (env_hrEndDraw env)); reflexivity.
Qed.

Lemma complete_HandleMessage env uMsg wp lp w res w' :
  wf w -> complete w -> SUCCEEDED (env_hrBrush env) = true ->
  HandleMessage env uMsg wp lp w = Some (res, w') -> complete w'.
Proof.
  intros Hwf Hcomplete HB Hrun. unfold HandleMessage in Hrun.
  destruct (uMsg =? WM_CREATE) eqn:E1.
  { unfold D2D1CreateFactory, created in Hrun. unfold_run. simpl in Hrun.
    destruct (SUCCEEDED (env_hrFactory env)); simpl in Hrun;
      destruct (FAILED (env_hrFactory env)); inversion Hrun; subst;
      exact Hcomplete. }
  destruct (uMsg =? WM_DESTROY) eqn:E2.
  { pose proof (WM_DESTROY_run env wp lp w Hwf) as Hd.
    rewrite HandleMessage_WM_DESTROY in Hd. simpl in Hd.
    rewrite Hd in Hrun. inversion Hrun; subst. intros H. contradiction. }
  destruct (uMsg =? WM_PAINT) eqn:E3.
  { unfold mbind, M_bind, bind, ret in Hrun.
    destruct (OnPaint env w) as [[[] w1]|] eqn:Hp; [|discriminate].
    inversion Hrun; subst; clear Hrun.
    destruct (CreateGraphicsResources env w) as [[hr w0]|] eqn:Hc.
    2:{ rewrite OnPaint_unfold in Hp. unfold mbind, M_bind, bind in Hp.
        rewrite Hc in Hp. discriminate. }
    pose proof (complete_CreateGraphicsResources env w hr w0 Hwf Hcomplete Hc
                  (or_intror HB)) as Hcomplete0.
    destruct (SUCCEEDED hr) eqn:Hhr.
    - destruct (OnPaint_outcome env w hr w0 Hwf Hc Hhr) as (t & Ht & _ & Hrun).
      rewrite Hrun in Hp. inversion Hp as [Hw'].
      destruct (device_lost (env_hrEndDraw env)).
      + intros H. contradiction.
      + exact Hcomplete0.
    - rewrite (OnPaint_run env w hr w0 Hwf Hc), Hhr in Hp.
      inversion Hp; subst. exact Hcomplete0. }
  destruct (uMsg =? WM_SIZE) eqn:E4.
  { unfold mbind, M_bind, bind, ret in Hrun.
    destruct (Resize env w) as [[[] w1]|] eqn:Hp; [|discriminate].
    inversion Hrun; subst; clear Hrun.
    destruct (pRenderTarget (this w)) as [t|] eqn:Ht.
    - destruct (wf_target w Hwf t Ht) as (h & px & Hobj).
      rewrite (Resize_run env w t h px Ht Hobj) in Hp.
      inversion Hp; subst. intros _. split; [|reflexivity].
      apply Hcomplete. congruence.
    - rewrite Resize_null in Hp by exact Ht. inversion Hp; subst.
      exact Hcomplete. }
  unfold DefWindowProc in Hrun. unfold_run. inversion Hrun; subst.
  exact Hcomplete.
Qed.

(** In a run in which [CreateSolidColorBrush] never fails, the
    resources are complete after every message. *)
Lemma complete_deliver msgs w w' :
  Forall (fun em : Env * MSG => SUCCEEDED (env_hrBrush em.1) = true) msgs ->
  wf w -> complete w -> deliver msgs w = Some (tt, w') ->
  wf w' /\ complete w'.
Proof.
  intros Hall. revert w.
  induction Hall as [|[env m] rest HB _ IH]; intros w Hwf Hcomplete Hrun.
  - inversion Hrun; subst. auto.
  - simpl in Hrun. unfold mbind, M_bind, bind in Hrun.
    destruct (HandleMessage env (message m) (wParam m) (lParam m) w)
      as [[res w1]|] eqn:Hm; [|discriminate].
    apply (IH w1); [| | exact Hrun].
    + eapply wf_HandleMessage; eassumption.
    + eapply complete_HandleMessage; eassumption.
Qed.

(** ** The factory *)

(** On [WM_CREATE] the factory is asked for with the single-threaded
    type; [HandleMessage] returns -1 when that fails and 0 otherwise. *)
Lemma WM_CREATE_single_threaded_factory env wp lp w :
  exists w',
    HandleMessage env WM_CREATE wp lp w =
      Some ((if FAILED (env_hrFactory env) then -1 else 0), w') /\
    log w' = log w ++
             [EvD2D1CreateFactory D2D1_FACTORY_TYPE_SINGLE_THREADED
                (env_hrFactory env)] /\
    (SUCCEEDED (env_hrFactory env) = true ->
     exists f, pFactory (this w') = Some f /\
               heap w' !! f = Some (ID2D1Factory D2D1_FACTORY_TYPE_SINGLE_THREADED)) /\
    (SUCCEEDED (env_hrFactory env) = false -> pFactory (this w') = None).
Proof.
  unfold HandleMessage, D2D1CreateFactory, created. unfold_run. simpl.
  destruct (SUCCEEDED (env_hrFactory env)); simpl;
    destruct (FAILED (env_hrFactory env)); eexists;
    (split; [reflexivity|]); (split; [reflexivity|]); simpl;
    (split; [intros E | intros E; try discriminate; reflexivity]);
    try discriminate; eexists; (split; [reflexivity|]);
    apply lookup_insert_eq.
Qed.

(** * Further properties of the window procedure *)

Arguments held : simpl never.

(** ** Case analysis *)

(** The ways [CreateGraphicsResources] can end, in hypothesis [Hrun]. *)
Ltac create_cases env w Hwf Hrun :=
  let t := fresh "t0" in
  let Ht := fresh "Ht0" in
  let f := fresh "f0" in
  let Hf := fresh "Hf0" in
  let ty := fresh "ty0" in
  let Hty := fresh "Hty0" in
  let HT := fresh "HT" in
  let HB := fresh "HB" in
  destruct (pRenderTarget (this w)) as [t|] eqn:Ht;
  [ rewrite CreateGraphicsResources_existing in Hrun by congruence
  | destruct (pFactory (this w)) as [f|] eqn:Hf;
    [ destruct (wf_factory w Hwf f Hf) as [ty Hty];
      destruct (SUCCEEDED (env_hrRenderTarget env)) eqn:HT;
      [ destruct (SUCCEEDED (env_hrBrush env)) eqn:HB;
        [ rewrite (CreateGraphicsResources_creates env w f ty Ht Hf Hty HT HB) in Hrun
        | rewrite (CreateGraphicsResources_brush_fails env w f ty Ht Hf Hty HT HB) in Hrun ]
      | rewrite (CreateGraphicsResources_target_fails env w f ty Ht Hf Hty HT) in Hrun ]
    | rewrite CreateGraphicsResources_null_factory in Hrun by assumption;
      discriminate ] ];
  inversion Hrun; subst; clear Hrun.

(** What one [OnPaint] does to the members and the objects. *)
Lemma OnPaint_result env w w' :
  wf w -> OnPaint env w = Some (tt, w') ->
  exists hr w0,
    CreateGraphicsResources env w = Some (hr, w0) /\ wf w0 /\
    ((SUCCEEDED hr = false /\ w' = w0) \/
     (exists t,
         SUCCEEDED hr = true /\ pRenderTarget (this w0) = Some t /\
         ((device_lost (env_hrEndDraw env) = false /\
           this w' = this w0 /\ heap w' = heap w0) \/
          (device_lost (env_hrEndDraw env) = true /\
           this w' = set_pBrush None (set_pRenderTarget None (this w0)) /\
           heap w' = heap (released [Some t; pBrush (this w0)] w0))))).
Proof.
  intros Hwf Hrun.
  destruct (CreateGraphicsResources env w) as [[hr w0]|] eqn:Hc.
  2:{ rewrite OnPaint_unfold in Hrun. unfold mbind, M_bind, bind in Hrun.
      rewrite Hc in Hrun. discriminate. }
  exists hr, w0. split; [reflexivity|].
  split; [exact (wf_CreateGraphicsResources env w hr w0 Hwf Hc)|].
  destruct (SUCCEEDED hr) eqn:Hhr.
  - right. destruct (OnPaint_outcome env w hr w0 Hwf Hc Hhr) as (t & Ht & _ & Hout).
    rewrite Hout in Hrun. exists t. split; [reflexivity|]. split; [exact Ht|].
    destruct (device_lost (env_hrEndDraw env));
      inversion Hrun; subst; [right | left]; auto.
  - left. rewrite (OnPaint_run env w hr w0 Hwf Hc), Hhr in Hrun.
    inversion Hrun; subst. auto.
Qed.

(** What one message does to the members and the objects. *)
Lemma HandleMessage_result env uMsg wp lp w res w' :
  wf w -> HandleMessage env uMsg wp lp w = Some (res, w') ->
  (uMsg = WM_CREATE /\
   ((SUCCEEDED (env_hrFactory env) = true /\
     this w' = set_pFactory (Some (fresh (dom (heap w)))) (this w) /\
     heap w' = <[fresh (dom (heap w)) :=
                   ID2D1Factory D2D1_FACTORY_TYPE_SINGLE_THREADED]> (heap w)) \/
    (SUCCEEDED (env_hrFactory env) = false /\
     this w' = set_pFactory None (this w) /\ heap w' = heap w))) \/
  (uMsg = WM_DESTROY /\
   this w' = set_pFactory None
               (set_pBrush None (set_pRenderTarget None (this w))) /\
   heap w' = heap (released [pRenderTarget (this w); pBrush (this w);
                             pFactory (this w)] w)) \/
  (uMsg = WM_PAINT /\ OnPaint env w = Some (tt, w')) \/
  (uMsg = WM_SIZE /\ Resize env w = Some (tt, w')) \/
  (uMsg <> WM_CREATE /\ uMsg <> WM_DESTROY /\ uMsg <> WM_PAINT /\
   uMsg <> WM_SIZE /\ this w' = this w /\ heap w' = heap w).
Proof.
  intros Hwf Hrun. unfold HandleMessage in Hrun.
  destruct (uMsg =? WM_CREATE) eqn:E1.
  { left. apply Z.eqb_eq in E1. split; [exact E1|].
    unfold D2D1CreateFactory, created in Hrun. unfold_run. simpl in Hrun.
    destruct (SUCCEEDED (env_hrFactory env)); simpl in Hrun;
      destruct (FAILED (env_hrFactory env)); inversion Hrun; subst;
      [left | left | right | right]; repeat split. }
  destruct (uMsg =? WM_DESTROY) eqn:E2.
  { right. left. apply Z.eqb_eq in E2. split; [exact E2|].
    pose proof (WM_DESTROY_run env wp lp w Hwf) as Hd.
    rewrite HandleMessage_WM_DESTROY in Hd. simpl in Hd.
    rewrite Hd in Hrun. inversion Hrun; subst. repeat split. }
  destruct (uMsg =? WM_PAINT) eqn:E3.
  { right. right. left. apply Z.eqb_eq in E3. split; [exact E3|].
    unfold mbind, M_bind, bind, ret in Hrun.
    destruct (OnPaint env w) as [[[] w1]|]; [|discriminate].
    inversion Hrun; subst. reflexivity. }
  destruct (uMsg =? WM_SIZE) eqn:E4.
  { do 3 right. left. apply Z.eqb_eq in E4. split; [exact E4|].
    unfold mbind, M_bind, bind, ret in Hrun.
    destruct (Resize env w) as [[[] w1]|]; [|discriminate].
    inversion Hrun; subst. reflexivity. }
  do 4 right. apply Z.eqb_neq in E1, E2, E3, E4.
  unfold DefWindowProc in Hrun. unfold_run. inversion Hrun; subst.
  repeat split; assumption.
Qed.

(** ** Faults *)

Lemma OnPaint_returns env w :
  wf w -> pRenderTarget (this w) <> None \/ pFactory (this w) <> None ->
  exists w', OnPaint env w = Some (tt, w').
Proof.
  intros Hwf Hheld.
  destruct (pRenderTarget (this w)) as [t|] eqn:Ht.
  - assert (Hc : CreateGraphicsResources env w = Some (S_OK, w))
      by (apply CreateGraphicsResources_existing; congruence).
    destruct (OnPaint_outcome env w S_OK w Hwf Hc eq_refl) as (t' & _ & _ & Hrun).
    eexists. exact Hrun.
  - destruct (pFactory (this w)) as [f|] eqn:Hf.
    + destruct (OnPaint_recreates env w f Hwf Ht Hf) as (w' & Hrun & _).
      exists w'. exact Hrun.
    + destruct Hheld; congruence.
Qed.

Lemma OnPaint_without_factory env w :
  pRenderTarget (this w) = None -> pFactory (this w) = None ->
  OnPaint env w = None.
Proof.
  intros Ht Hf. rewrite OnPaint_unfold. unfold mbind, M_bind, bind.
  rewrite CreateGraphicsResources_null_factory by assumption. reflexivity.
Qed.

Lemma HandleMessage_returns env uMsg wp lp w :
  wf w ->
  (uMsg = WM_PAINT ->
   pRenderTarget (this w) <> None \/ pFactory (this w) <> None) ->
  exists res w', HandleMessage env uMsg wp lp w = Some (res, w').
Proof.
  intros Hwf Hpaint. unfold HandleMessage.
  destruct (uMsg =? WM_CREATE) eqn:E1.
  { unfold D2D1CreateFactory, created. unfold_run. simpl.
    destruct (SUCCEEDED (env_hrFactory env)); simpl;
      destruct (FAILED (env_hrFactory env)); eauto. }
  destruct (uMsg =? WM_DESTROY) eqn:E2.
  { pose proof (WM_DESTROY_run env wp lp w Hwf) as Hd.
    rewrite HandleMessage_WM_DESTROY in Hd. simpl in Hd. rewrite Hd. eauto. }
  destruct (uMsg =? WM_PAINT) eqn:E3.
  { apply Z.eqb_eq in E3.
    destruct (OnPaint_returns env w Hwf (Hpaint E3)) as [w' Hrun].
    unfold mbind, M_bind, bind, ret. rewrite Hrun. eauto. }
  destruct (uMsg =? WM_SIZE) eqn:E4.
  { unfold mbind, M_bind, bind, ret.
    destruct (pRenderTarget (this w)) as [t|] eqn:Ht.
    - destruct (wf_target w Hwf t Ht) as (h & px & Hobj).
      rewrite (Resize_run env w t h px Ht Hobj). eauto.
    - rewrite Resize_null by exact Ht. eauto. }
  unfold DefWindowProc. unfold_run. eauto.
Qed.

(** X1.  For a window whose pointers are sound, exactly one situation
    makes [HandleMessage] fault: a [WM_PAINT] that arrives while the
    window holds neither a render target nor a factory (before
    [WM_CREATE], after a failed [WM_CREATE], after [WM_DESTROY]), where
    [CreateGraphicsResources] calls through the [NULL] [pFactory].
    Every other message, under every answer of the system, returns. *)
Theorem HandleMessage_faults_only_painting_without_factory
    (env : Env) (uMsg : UINT) (wp lp : Z) (w : World) :
  wf w ->
  (HandleMessage env uMsg wp lp w = None <->
   uMsg = WM_PAINT /\ pRenderTarget (this w) = None /\ pFactory (this w) = None).
Proof.
  intros Hwf. split.
  - intros Hfault.
    destruct (Z.eq_dec uMsg WM_PAINT) as [E|E].
    + split; [exact E|].
      destruct (pRenderTarget (this w)) as [t|] eqn:Ht.
      * destruct (HandleMessage_returns env uMsg wp lp w Hwf) as (r & w' & H).
        { intros _. left. congruence. }
        congruence.
      * split; [reflexivity|].
        destruct (pFactory (this w)) as [f|] eqn:Hf; [|reflexivity].
        destruct (HandleMessage_returns env uMsg wp lp w Hwf) as (r & w' & H).
        { intros _. right. congruence. }
        congruence.
    + destruct (HandleMessage_returns env uMsg wp lp w Hwf) as (r & w' & H).
      { intros E'. contradiction. }
      congruence.
  - intros (-> & Ht & Hf). rewrite HandleMessage_WM_PAINT.
    unfold mbind, M_bind, bind.
    rewrite OnPaint_without_factory by assumption. reflexivity.
Qed.

Lemma HandleMessage_faults_only_painting_without_factory_witness :
  wf (constructed hwnd0 garbage) /\
  (HandleMessage env_ok WM_PAINT 0 0 (constructed hwnd0 garbage) = None <->
   WM_PAINT = WM_PAINT /\
   pRenderTarget (this (constructed hwnd0 garbage)) = None /\
   pFactory (this (constructed hwnd0 garbage)) = None).
Proof.
  assert (Hwf : wf (constructed hwnd0 garbage)) by wf_concrete.
  split; [exact Hwf|].
  exact (HandleMessage_faults_only_painting_without_factory
           env_ok WM_PAINT 0 0 (constructed hwnd0 garbage) Hwf).
Defined.

(** ** Which message changes which member *)

Lemma OnPaint_keeps env w w' :
  wf w -> OnPaint env w = Some (tt, w') ->
  m_hwnd (this w') = m_hwnd (this w) /\ pFactory (this w') = pFactory (this w).
Proof.
  intros Hwf Hrun.
  destruct (OnPaint_result env w w' Hwf Hrun) as (hr & w0 & Hc & _ & Hcases).
  destruct (CreateGraphicsResources_keeps env w hr w0 Hwf Hc) as [Hf Hh].
  destruct Hcases as [[_ ->]|(t & _ & _ & [(_ & Ht & _)|(_ & Ht & _)])];
    [auto | rewrite Ht; auto | rewrite Ht; simpl; auto].
Qed.

Lemma Resize_keeps env w w' :
  wf w -> Resize env w = Some (tt, w') ->
  m_hwnd (this w') = m_hwnd (this w) /\
  pFactory (this w') = pFactory (this w) /\
  pRenderTarget (this w') = pRenderTarget (this w) /\
  pBrush (this w') = pBrush (this w).
Proof.
  intros Hwf Hrun.
  destruct (pRenderTarget (this w)) as [t|] eqn:Ht.
  - destruct (wf_target w Hwf t Ht) as (h & px & Hobj).
    rewrite (Resize_run env w t h px Ht Hobj) in Hrun.
    inversion Hrun; subst. simpl. auto.
  - rewrite Resize_null in Hrun by exact Ht. inversion Hrun; subst. auto.
Qed.

Lemma HandleMessage_keeps_factory env uMsg wp lp w res w' :
  wf w -> uMsg <> WM_CREATE -> uMsg <> WM_DESTROY ->
  HandleMessage env uMsg wp lp w = Some (res, w') ->
  pFactory (this w') = pFactory (this w).
Proof.
  intros Hwf N1 N2 Hrun.
  destruct (HandleMessage_result env uMsg wp lp w res w' Hwf Hrun)
    as [[E _]|[[E _]|[[_ Hp]|[[_ Hr]|(_ & _ & _ & _ & Ht & _)]]]];
    try contradiction.
  - apply (OnPaint_keeps env w w' Hwf Hp).
  - apply (Resize_keeps env w w' Hwf Hr).
  - now rewrite Ht.
Qed.

(** X2.  Which message can change which member.  No message ever
    changes [m_hwnd].  [pFactory] changes only on [WM_CREATE] and
    [WM_DESTROY].  [ellipse] changes only on [WM_PAINT] and [WM_SIZE].
    [pRenderTarget] and [pBrush] change only on [WM_PAINT] and
    [WM_DESTROY]; in particular a resize keeps both pointers. *)
Theorem HandleMessage_frame
    (env : Env) (uMsg : UINT) (wp lp : Z) (w w' : World) (res : LRESULT) :
  wf w -> HandleMessage env uMsg wp lp w = Some (res, w') ->
  m_hwnd (this w') = m_hwnd (this w) /\
  (uMsg <> WM_CREATE -> uMsg <> WM_DESTROY ->
   pFactory (this w') = pFactory (this w)) /\
  (uMsg <> WM_PAINT -> uMsg <> WM_SIZE ->
   ellipse (this w') = ellipse (this w)) /\
  (uMsg <> WM_PAINT -> uMsg <> WM_DESTROY ->
   pRenderTarget (this w') = pRenderTarget (this w) /\
   pBrush (this w') = pBrush (this w)).
Proof.
  intros Hwf Hrun.
  destruct (HandleMessage_result env uMsg wp lp w res w' Hwf Hrun)
    as [[E [(_ & Ht & _)|(_ & Ht & _)]]
       |[(E & Ht & _)|[[E Hp]|[[E Hr]|(_ & _ & _ & _ & Ht & _)]]]].
  - rewrite Ht. simpl. repeat split; intros; congruence.
  - rewrite Ht. simpl. repeat split; intros; congruence.
  - rewrite Ht. simpl. repeat split; intros; congruence.
  - destruct (OnPaint_keeps env w w' Hwf Hp) as [Hh Hf].
    repeat split; intros; congruence.
  - destruct (Resize_keeps env w w' Hwf Hr) as (Hh & Hf & Hrt & Hb).
    repeat split; intros; congruence.
  - rewrite Ht. repeat split; intros; congruence.
Qed.

Lemma HandleMessage_frame_witness :
  wf world_painted /\
  HandleMessage env_resized WM_SIZE 0 0 world_painted =
    Some (0, after [(env_ok, msg WM_CREATE); (env_ok, msg WM_PAINT);
                    (env_resized, msg WM_SIZE)]) /\
  let w' := after [(env_ok, msg WM_CREATE); (env_ok, msg WM_PAINT);
                   (env_resized, msg WM_SIZE)] in
  m_hwnd (this w') = m_hwnd (this world_painted) /\
  (WM_SIZE <> WM_CREATE -> WM_SIZE <> WM_DESTROY ->
   pFactory (this w') = pFactory (this world_painted)) /\
  (WM_SIZE <> WM_PAINT -> WM_SIZE <> WM_SIZE ->
   ellipse (this w') = ellipse (this world_painted)) /\
  (WM_SIZE <> WM_PAINT -> WM_SIZE <> WM_DESTROY ->
   pRenderTarget (this w') = pRenderTarget (this world_painted) /\
   pBrush (this w') = pBrush (this world_painted)).
Proof.
  assert (Hwf : wf world_painted) by wf_concrete.
  assert (Hrun : HandleMessage env_resized WM_SIZE 0 0 world_painted =
                   Some (0, after [(env_ok, msg WM_CREATE); (env_ok, msg WM_PAINT);
                                   (env_resized, msg WM_SIZE)]))
    by (vm_compute; reflexivity).
  split; [exact Hwf|]. split; [exact Hrun|].
  exact (HandleMessage_frame env_resized WM_SIZE 0 0 world_painted _ 0 Hwf Hrun).
Defined.

(** ** Runs *)

Lemma deliver_cons env m rest w :
  deliver ((env, m) :: rest) w =
    match HandleMessage env (message m) (wParam m) (lParam m) w with
    | Some (_, w1) => deliver rest w1
    | None => None
    end.
Proof.
  simpl. unfold mbind, M_bind, bind.
  destruct (HandleMessage env (message m) (wParam m) (lParam m) w) as [[]|];
    reflexivity.
Qed.

(** X3.  Between creation and destruction nothing can make the program
    fault: from a sound window that holds its factory, any sequence of
    messages other than [WM_CREATE] and [WM_DESTROY], under any answers
    of the system (failed creations, lost devices, any sizes), is
    handled to the end, leaves the pointers sound and keeps the
    factory. *)
Theorem run_with_factory_never_faults (msgs : list (Env * MSG)) (w : World) :
  wf w -> pFactory (this w) <> None ->
  Forall (fun em : Env * MSG =>
            message em.2 <> WM_CREATE /\ message em.2 <> WM_DESTROY) msgs ->
  exists w',
    deliver msgs w = Some (tt, w') /\ wf w' /\
    pFactory (this w') = pFactory (this w).
Proof.
  intros Hwf Hf Hall. revert w Hwf Hf.
  induction Hall as [|[env m] rest [N1 N2] _ IH]; intros w Hwf Hf.
  - exists w. auto.
  - simpl in N1, N2.
    destruct (HandleMessage_returns env (message m) (wParam m) (lParam m) w Hwf)
      as (res & w1 & Hrun); [auto|].
    pose proof (wf_HandleMessage _ _ _ _ _ _ _ Hwf Hrun) as Hwf1.
    pose proof (HandleMessage_keeps_factory _ _ _ _ _ _ _ Hwf N1 N2 Hrun) as Hf1.
    destruct (IH w1 Hwf1) as (w' & Hrest & Hwf' & Hf'); [congruence|].
    exists w'. rewrite deliver_cons, Hrun.
    split; [exact Hrest|]. split; [exact Hwf'|]. congruence.
Qed.

Lemma run_with_factory_never_faults_witness :
  wf world_created /\ pFactory (this world_created) <> None /\
  Forall (fun em : Env * MSG =>
            message em.2 <> WM_CREATE /\ message em.2 <> WM_DESTROY)
    [(env_nobrush, msg WM_PAINT); (env_lost, msg WM_PAINT);
     (env_resized, msg WM_SIZE); (env_ok, msg 0x0200)] /\
  exists w',
    deliver [(env_nobrush, msg WM_PAINT); (env_lost, msg WM_PAINT);
             (env_resized, msg WM_SIZE); (env_ok, msg 0x0200)] world_created
      = Some (tt, w') /\
    wf w' /\ pFactory (this w') = pFactory (this world_created).
Proof.
  assert (Hwf : wf world_created) by wf_concrete.
  assert (Hf : pFactory (this world_created) <> None)
    by (vm_compute; discriminate).
  assert (Hall : Forall (fun em : Env * MSG =>
                           message em.2 <> WM_CREATE /\ message em.2 <> WM_DESTROY)
                   [(env_nobrush, msg WM_PAINT); (env_lost, msg WM_PAINT);
                    (env_resized, msg WM_SIZE); (env_ok, msg 0x0200)])
    by (repeat constructor; vm_compute; discriminate).
  split; [exact Hwf|]. split; [exact Hf|]. split; [exact Hall|].
  exact (run_with_factory_never_faults _ world_created Hwf Hf Hall).
Defined.

(** X4.  Whatever messages reach a newly constructed window, in
    whatever order and under whatever answers of the system, if they
    are handled without fault then every interface pointer the window
    holds refers to a live object of its own interface (no pointer to a
    released object is ever kept), and a brush it holds was created
    red. *)
Theorem delivered_window_is_sound
    (h : HWND) (e : D2D1_ELLIPSE) (msgs : list (Env * MSG)) (w' : World) :
  deliver msgs (constructed h e) = Some (tt, w') -> wf w'.
Proof.
  intros Hrun. exact (wf_deliver msgs _ w' (wf_constructed h e) Hrun).
Qed.

Lemma delivered_window_is_sound_witness :
  deliver [(env_ok, msg WM_CREATE); (env_ok, msg WM_PAINT);
           (env_lost, msg WM_PAINT); (env_ok, msg WM_CREATE);
           (env_nobrush, msg WM_PAINT)]
    (constructed hwnd0 garbage)
  = Some (tt, after [(env_ok, msg WM_CREATE); (env_ok, msg WM_PAINT);
                     (env_lost, msg WM_PAINT); (env_ok, msg WM_CREATE);
                     (env_nobrush, msg WM_PAINT)]) /\
  wf (after [(env_ok, msg WM_CREATE); (env_ok, msg WM_PAINT);
             (env_lost, msg WM_PAINT); (env_ok, msg WM_CREATE);
             (env_nobrush, msg WM_PAINT)]).
Proof.
  assert (Hrun :
    deliver [(env_ok, msg WM_CREATE); (env_ok, msg WM_PAINT);
             (env_lost, msg WM_PAINT); (env_ok, msg WM_CREATE);
             (env_nobrush, msg WM_PAINT)]
      (constructed hwnd0 garbage)
    = Some (tt, after [(env_ok, msg WM_CREATE); (env_ok, msg WM_PAINT);
                       (env_lost, msg WM_PAINT); (env_ok, msg WM_CREATE);
                       (env_nobrush, msg WM_PAINT)]))
    by (vm_compute; reflexivity).
  split; [exact Hrun|].
  exact (delivered_window_is_sound hwnd0 garbage _ _ Hrun).
Defined.

(** ** The brush belongs to the target *)

Lemma elem_of_held3 (p : ptr) (a b c : option ptr) :
  p ∈ held [a; b; c] <-> a = Some p \/ b = Some p \/ c = Some p.
Proof.
  unfold held. rewrite list_elem_of_omap. split.
  - intros (o & Ho & E). simpl in E. subst o.
    rewrite !elem_of_cons, elem_of_nil in Ho.
    destruct Ho as [Ho|[Ho|[Ho|Ho]]]; subst; auto; contradiction.
  - intros H. exists (Some p). split; [|reflexivity].
    rewrite !elem_of_cons. destruct H as [-> | [-> | ->]]; auto.
Qed.

Lemma elem_of_held2 (p : ptr) (a b : option ptr) :
  p ∈ held [a; b] <-> a = Some p \/ b = Some p.
Proof.
  unfold held. rewrite list_elem_of_omap. split.
  - intros (o & Ho & E). simpl in E. subst o.
    rewrite !elem_of_cons, elem_of_nil in Ho.
    destruct Ho as [Ho|[Ho|Ho]]; subst; auto; contradiction.
  - intros H. exists (Some p). split; [|reflexivity].
    rewrite !elem_of_cons. destruct H as [-> | ->]; auto.
Qed.

Lemma brush_of_target_CreateGraphicsResources env w hr w0 :
  wf w -> brush_of_target w ->
  CreateGraphicsResources env w = Some (hr, w0) -> brush_of_target w0.
Proof.
  intros Hwf Hbt Hrun. create_cases env w Hwf Hrun.
  - exact Hbt.
  - intros b t c Hb Hobj. simpl in *. inversion Hb; subst b.
    rewrite lookup_insert_eq in Hobj. inversion Hobj; subst. reflexivity.
  - intros b t c Hb Hobj. simpl in Hb. discriminate.
  - intros b t c Hb Hobj. simpl in *. apply (Hbt b t c Hb Hobj).
Qed.

Lemma brush_of_target_HandleMessage env uMsg wp lp w res w' :
  wf w -> brush_of_target w ->
  HandleMessage env uMsg wp lp w = Some (res, w') -> brush_of_target w'.
Proof.
  intros Hwf Hbt Hrun.
  destruct (HandleMessage_result env uMsg wp lp w res w' Hwf Hrun)
    as [[_ [(_ & Ht & Hh)|(_ & Ht & Hh)]]
       |[(_ & Ht & Hh)|[[_ Hp]|[[_ Hr]|(_ & _ & _ & _ & Ht & Hh)]]]].
  - intros b t c Hb Hobj. rewrite Ht in Hb |- *. rewrite Hh in Hobj.
    simpl in *. destruct (wf_brush w Hwf b Hb) as [t' Hlive].
    rewrite lookup_insert_ne in Hobj.
    + apply (Hbt b t c Hb Hobj).
    + intros E. rewrite <- E, fresh_unallocated in Hlive. discriminate.
  - intros b t c Hb Hobj. rewrite Ht in Hb |- *. rewrite Hh in Hobj.
    apply (Hbt b t c Hb Hobj).
  - intros b t c Hb Hobj. rewrite Ht in Hb. discriminate.
  - destruct (OnPaint_result env w w' Hwf Hp) as (hr & w0 & Hc & Hwf0 & Hcases).
    pose proof (brush_of_target_CreateGraphicsResources env w hr w0 Hwf Hbt Hc)
      as Hbt0.
    destruct Hcases as [[_ ->]|(t0 & _ & _ & [(_ & Ht & Hh)|(_ & Ht & Hh)])].
    + exact Hbt0.
    + intros b t c Hb Hobj. rewrite Ht in Hb |- *. rewrite Hh in Hobj.
      apply (Hbt0 b t c Hb Hobj).
    + intros b t c Hb Hobj. rewrite Ht in Hb. discriminate.
  - destruct (pRenderTarget (this w)) as [t0|] eqn:Ht0.
    + destruct (wf_target w Hwf t0 Ht0) as (h & px & Htarget).
      rewrite (Resize_run env w t0 h px Ht0 Htarget) in Hr.
      inversion Hr; subst. intros b t c Hb Hobj. simpl in *.
      rewrite Ht0. rewrite lookup_insert in Hobj.
      case_decide; [discriminate|].
      rewrite <- Ht0. apply (Hbt b t c Hb Hobj).
    + rewrite Resize_null in Hr by exact Ht0. inversion Hr; subst. exact Hbt.
  - intros b t c Hb Hobj. rewrite Ht in Hb |- *. rewrite Hh in Hobj.
    apply (Hbt b t c Hb Hobj).
Qed.

Lemma brush_of_target_deliver msgs w w' :
  wf w -> brush_of_target w -> deliver msgs w = Some (tt, w') ->
  brush_of_target w'.
Proof.
  revert w. induction msgs as [|[env m] rest IH]; intros w Hwf Hbt Hrun.
  - inversion Hrun; subst. exact Hbt.
  - rewrite deliver_cons in Hrun.
    destruct (HandleMessage env (message m) (wParam m) (lParam m) w)
      as [[res w1]|] eqn:Hm; [|discriminate].
    apply (IH w1); [| | exact Hrun].
    + eapply wf_HandleMessage; eassumption.
    + eapply brush_of_target_HandleMessage; eassumption.
Qed.

Lemma brush_of_target_constructed h e : brush_of_target (constructed h e).
Proof. intros b t c Hb. discriminate. Qed.

(** X5.  After any messages delivered to a new window, under any
    answers of the system, a brush the window holds was created by the
    very render target it holds: the window never keeps a brush of a
    render target it has released, and never holds a brush without a
    render target. *)
Theorem held_brush_belongs_to_held_target
    (h : HWND) (e : D2D1_ELLIPSE) (msgs : list (Env * MSG)) (w' : World) :
  deliver msgs (constructed h e) = Some (tt, w') ->
  forall b,
    pBrush (this w') = Some b ->
    exists t,
      pRenderTarget (this w') = Some t /\
      heap w' !! b = Some (ID2D1SolidColorBrush t red) /\
      exists hw px, heap w' !! t = Some (ID2D1HwndRenderTarget hw px).
Proof.
  intros Hrun b Hb.
  pose proof (wf_deliver msgs _ w' (wf_constructed h e) Hrun) as Hwf.
  pose proof (brush_of_target_deliver msgs _ w' (wf_constructed h e)
                (brush_of_target_constructed h e) Hrun) as Hbt.
  destruct (wf_brush w' Hwf b Hb) as [t Hobj].
  pose proof (Hbt b t red Hb Hobj) as Ht.
  exists t. split; [exact Ht|]. split; [exact Hobj|].
  exact (wf_target w' Hwf t Ht).
Qed.

Lemma held_brush_belongs_to_held_target_witness :
  deliver [(env_ok, msg WM_CREATE); (env_ok, msg WM_PAINT);
           (env_lost, msg WM_PAINT); (env_resized, msg WM_PAINT)]
    (constructed hwnd0 garbage)
  = Some (tt, after [(env_ok, msg WM_CREATE); (env_ok, msg WM_PAINT);
                     (env_lost, msg WM_PAINT); (env_resized, msg WM_PAINT)]) /\
  pBrush (this (after [(env_ok, msg WM_CREATE); (env_ok, msg WM_PAINT);
                       (env_lost, msg WM_PAINT); (env_resized, msg WM_PAINT)]))
  = Some 3%positive /\
  exists t,
    pRenderTarget
      (this (after [(env_ok, msg WM_CREATE); (env_ok, msg WM_PAINT);
                    (env_lost, msg WM_PAINT); (env_resized, msg WM_PAINT)]))
    = Some t /\
    heap (after [(env_ok, msg WM_CREATE); (env_ok, msg WM_PAINT);
                 (env_lost, msg WM_PAINT); (env_resized, msg WM_PAINT)])
      !! 3%positive = Some (ID2D1SolidColorBrush t red) /\
    exists hw px,
      heap (after [(env_ok, msg WM_CREATE); (env_ok, msg WM_PAINT);
                   (env_lost, msg WM_PAINT); (env_resized, msg WM_PAINT)])
        !! t = Some (ID2D1HwndRenderTarget hw px).
Proof.
  assert (Hrun :
    deliver [(env_ok, msg WM_CREATE); (env_ok, msg WM_PAINT);
             (env_lost, msg WM_PAINT); (env_resized, msg WM_PAINT)]
      (constructed hwnd0 garbage)
    = Some (tt, after [(env_ok, msg WM_CREATE); (env_ok, msg WM_PAINT);
                       (env_lost, msg WM_PAINT); (env_resized, msg WM_PAINT)]))
    by (vm_compute; reflexivity).
  assert (Hb :
    pBrush (this (after [(env_ok, msg WM_CREATE); (env_ok, msg WM_PAINT);
                         (env_lost, msg WM_PAINT); (env_resized, msg WM_PAINT)]))
    = Some 3%positive)
    by (vm_compute; reflexivity).
  split; [exact Hrun|]. split; [exact Hb|].
  exact (held_brush_belongs_to_held_target hwnd0 garbage _ _ Hrun _ Hb).
Defined.

(** ** Nothing leaks *)

Lemma owned_constructed h e : owned (constructed h e).
Proof. intros p [o Ho]. simpl in Ho. rewrite lookup_empty in Ho. discriminate. Qed.

Lemma brush_needs_target w :
  wf w -> brush_of_target w ->
  pRenderTarget (this w) = None -> pBrush (this w) = None.
Proof.
  intros Hwf Hbt Ht. destruct (pBrush (this w)) as [b|] eqn:Hb; [|reflexivity].
  destruct (wf_brush w Hwf b Hb) as [t Hobj].
  pose proof (Hbt b t red Hb Hobj). congruence.
Qed.

Lemma is_Some_insert_fresh (hp : gmap ptr COMObject) p q o :
  is_Some (<[p := o]> hp !! q) -> q = p \/ is_Some (hp !! q).
Proof.
  rewrite lookup_insert. case_decide; [left; congruence | right; assumption].
Qed.

Lemma owned_CreateGraphicsResources env w hr w0 :
  wf w -> brush_of_target w -> owned w ->
  CreateGraphicsResources env w = Some (hr, w0) -> owned w0.
Proof.
  intros Hwf Hbt Hown Hrun.
  pose proof (brush_needs_target w Hwf Hbt) as Hnb.
  create_cases env w Hwf Hrun.
  - exact Hown.
  - specialize (Hnb eq_refl). intros p Hp. simpl in *.
    apply elem_of_held3. simpl.
    apply is_Some_insert_fresh in Hp as [->|Hp]; [auto|].
    apply is_Some_insert_fresh in Hp as [->|Hp]; [auto|].
    apply Hown, elem_of_held3 in Hp. rewrite Ht0, Hnb in Hp.
    destruct Hp as [Hp|[Hp|Hp]]; try discriminate. auto.
  - specialize (Hnb eq_refl). intros p Hp. simpl in *.
    apply elem_of_held3. simpl.
    apply is_Some_insert_fresh in Hp as [->|Hp]; [auto|].
    apply Hown, elem_of_held3 in Hp. rewrite Ht0, Hnb in Hp.
    destruct Hp as [Hp|[Hp|Hp]]; try discriminate. auto.
  - intros p Hp. simpl in *. apply (Hown p Hp).
Qed.

Lemma owned_HandleMessage env uMsg wp lp w res w' :
  wf w -> brush_of_target w -> owned w ->
  uMsg <> WM_CREATE \/ pFactory (this w) = None ->
  HandleMessage env uMsg wp lp w = Some (res, w') -> owned w'.
Proof.
  intros Hwf Hbt Hown Hcreate Hrun.
  destruct (HandleMessage_result env uMsg wp lp w res w' Hwf Hrun)
    as [[E [(_ & Ht & Hh)|(_ & Ht & Hh)]]
       |[(_ & Ht & Hh)|[[_ Hp]|[[_ Hr]|(_ & _ & _ & _ & Ht & Hh)]]]].
  - destruct Hcreate as [N|Hf]; [contradiction|].
    intros p Hp. rewrite Hh in Hp. rewrite Ht. apply elem_of_held3. simpl.
    apply is_Some_insert_fresh in Hp as [->|Hp]; [auto|].
    apply Hown, elem_of_held3 in Hp. rewrite Hf in Hp.
    destruct Hp as [Hp|[Hp|Hp]]; try discriminate; auto.
  - destruct Hcreate as [N|Hf]; [contradiction|].
    intros p Hp. rewrite Hh in Hp. rewrite Ht. apply elem_of_held3. simpl.
    apply Hown, elem_of_held3 in Hp. rewrite Hf in Hp.
    destruct Hp as [Hp|[Hp|Hp]]; try discriminate; auto.
  - intros p Hp. exfalso. rewrite Hh in Hp.
    destruct (decide (p ∈ held [pRenderTarget (this w); pBrush (this w);
                                pFactory (this w)])) as [Hin|Hnin].
    + rewrite (released_gone _ w p Hin) in Hp. destruct Hp; discriminate.
    + rewrite (released_keeps _ w p Hnin) in Hp. apply Hnin, Hown, Hp.
  - destruct (OnPaint_result env w w' Hwf Hp) as (hr & w0 & Hc & Hwf0 & Hcases).
    pose proof (owned_CreateGraphicsResources env w hr w0 Hwf Hbt Hown Hc)
      as Hown0.
    destruct Hcases as [[_ ->]|(t0 & _ & Ht0 & [(_ & Ht & Hh)|(_ & Ht & Hh)])].
    + exact Hown0.
    + intros p Hq. rewrite Hh in Hq. rewrite Ht. apply (Hown0 p Hq).
    + intros p Hq. rewrite Hh in Hq. rewrite Ht. apply elem_of_held3. simpl.
      destruct (decide (p ∈ held [Some t0; pBrush (this w0)])) as [Hin|Hnin].
      * rewrite (released_gone _ w0 p Hin) in Hq. destruct Hq; discriminate.
      * rewrite (released_keeps _ w0 p Hnin) in Hq.
        apply Hown0, elem_of_held3 in Hq. rewrite Ht0 in Hq.
        rewrite elem_of_held2 in Hnin. tauto.
  - destruct (pRenderTarget (this w)) as [t0|] eqn:Ht0.
    + destruct (wf_target w Hwf t0 Ht0) as (h & px & Htarget).
      rewrite (Resize_run env w t0 h px Ht0 Htarget) in Hr.
      inversion Hr; subst. intros p Hq. simpl in *.
      apply elem_of_held3. simpl. rewrite Ht0.
      apply is_Some_insert_fresh in Hq as [->|Hq]; [auto|].
      apply Hown, elem_of_held3 in Hq. rewrite Ht0 in Hq. exact Hq.
    + rewrite Resize_null in Hr by exact Ht0. inversion Hr; subst. exact Hown.
  - intros p Hq. rewrite Hh in Hq. rewrite Ht. apply (Hown p Hq).
Qed.

Lemma owned_deliver msgs w w' :
  wf w -> brush_of_target w -> owned w ->
  Forall (fun em : Env * MSG => message em.2 <> WM_CREATE) msgs ->
  deliver msgs w = Some (tt, w') ->
  wf w' /\ owned w'.
Proof.
  intros Hwf Hbt Hown Hall. revert w Hwf Hbt Hown.
  induction Hall as [|[env m] rest N _ IH]; intros w Hwf Hbt Hown Hrun.
  - inversion Hrun; subst. auto.
  - rewrite deliver_cons in Hrun. simpl in N.
    destruct (HandleMessage env (message m) (wParam m) (lParam m) w)
      as [[res w1]|] eqn:Hm; [|discriminate].
    apply (IH w1); [| | | exact Hrun].
    + eapply wf_HandleMessage; eassumption.
    + eapply brush_of_target_HandleMessage; eassumption.
    + eapply owned_HandleMessage; eauto.
Qed.

Lemma deliver_app l1 l2 w :
  deliver (l1 ++ l2) w =
    match deliver l1 w with
    | Some (_, w1) => deliver l2 w1
    | None => None
    end.
Proof.
  revert w. induction l1 as [|[env m] l1 IH]; intros w; [reflexivity|].
  rewrite <- app_comm_cons, !deliver_cons.
  destruct (HandleMessage env (message m) (wParam m) (lParam m) w) as [[res w1]|];
    [apply IH | reflexivity].
Qed.

(** X6.  Nothing leaks over the life of the window.  Let a new window
    receive [WM_CREATE], then any messages other than [WM_CREATE] under
    any answers of the system (failed creations and lost devices
    included), then [WM_DESTROY].  If no message faults, then after
    [WM_DESTROY] no object is left alive and all three interface
    pointers are [NULL]. *)
Theorem shutdown_leaves_no_object
    (h : HWND) (e : D2D1_ELLIPSE) (env0 envd : Env) (m0 md : MSG)
    (msgs : list (Env * MSG)) (w' : World) :
  message m0 = WM_CREATE -> message md = WM_DESTROY ->
  Forall (fun em : Env * MSG => message em.2 <> WM_CREATE) msgs ->
  deliver ((env0, m0) :: msgs ++ [(envd, md)]) (constructed h e) = Some (tt, w') ->
  heap w' = ∅ /\
  pRenderTarget (this w') = None /\ pBrush (this w') = None /\
  pFactory (this w') = None.
Proof.
  intros E0 Ed Hall Hrun.
  rewrite deliver_cons in Hrun.
  destruct (HandleMessage env0 (message m0) (wParam m0) (lParam m0)
              (constructed h e)) as [[res1 w1]|] eqn:H1; [|discriminate].
  rewrite deliver_app in Hrun.
  destruct (deliver msgs w1) as [[[] w2]|] eqn:H2; [|discriminate].
  rewrite deliver_cons in Hrun.
  destruct (HandleMessage envd (message md) (wParam md) (lParam md) w2)
    as [[res3 w3]|] eqn:H3; [|discriminate].
  inversion Hrun; subst w'; clear Hrun.
  pose proof (wf_constructed h e) as Hwf0.
  pose proof (wf_HandleMessage _ _ _ _ _ _ _ Hwf0 H1) as Hwf1.
  pose proof (brush_of_target_HandleMessage _ _ _ _ _ _ _ Hwf0
                (brush_of_target_constructed h e) H1) as Hbt1.
  pose proof (owned_HandleMessage _ _ _ _ _ _ _ Hwf0
                (brush_of_target_constructed h e) (owned_constructed h e)
                (or_intror eq_refl) H1) as Hown1.
  destruct (owned_deliver msgs w1 w2 Hwf1 Hbt1 Hown1 Hall H2) as [Hwf2 Hown2].
  rewrite Ed in H3.
  pose proof (WM_DESTROY_run envd (wParam md) (lParam md) w2 Hwf2) as Hd.
  simpl in Hd. rewrite Hd in H3. inversion H3; subst; clear H3.
  split; [|repeat split].
  apply map_eq. intros p. rewrite lookup_empty.
  destruct (decide (p ∈ held [pRenderTarget (this w2); pBrush (this w2);
                              pFactory (this w2)])) as [Hin|Hnin].
  - apply (released_gone _ w2 p Hin).
  - transitivity (heap w2 !! p); [exact (released_keeps _ w2 p Hnin)|].
    destruct (heap w2 !! p) eqn:Hp; [|reflexivity].
    exfalso. apply Hnin, Hown2. rewrite Hp. eauto.
Qed.

Lemma shutdown_leaves_no_object_witness :
  message (msg WM_CREATE) = WM_CREATE /\ message (msg WM_DESTROY) = WM_DESTROY /\
  Forall (fun em : Env * MSG => message em.2 <> WM_CREATE)
    [(env_resized, msg WM_SIZE); (env_nobrush, msg WM_PAINT);
     (env_ok, msg WM_PAINT); (env_lost, msg WM_PAINT);
     (env_resized, msg WM_PAINT)] /\
  let w' :=
    after ((env_ok, msg WM_CREATE)
           :: [(env_resized, msg WM_SIZE); (env_nobrush, msg WM_PAINT);
               (env_ok, msg WM_PAINT); (env_lost, msg WM_PAINT);
               (env_resized, msg WM_PAINT)]
           ++ [(env_ok, msg WM_DESTROY)]) in
  deliver ((env_ok, msg WM_CREATE)
           :: [(env_resized, msg WM_SIZE); (env_nobrush, msg WM_PAINT);
               (env_ok, msg WM_PAINT); (env_lost, msg WM_PAINT);
               (env_resized, msg WM_PAINT)]
           ++ [(env_ok, msg WM_DESTROY)]) (constructed hwnd0 garbage)
    = Some (tt, w') /\
  heap w' = ∅ /\
  pRenderTarget (this w') = None /\ pBrush (this w') = None /\
  pFactory (this w') = None.
Proof.
  assert (E0 : message (msg WM_CREATE) = WM_CREATE) by reflexivity.
  assert (Ed : message (msg WM_DESTROY) = WM_DESTROY) by reflexivity.
  assert (Hall : Forall (fun em : Env * MSG => message em.2 <> WM_CREATE)
                   [(env_resized, msg WM_SIZE); (env_nobrush, msg WM_PAINT);
                    (env_ok, msg WM_PAINT); (env_lost, msg WM_PAINT);
                    (env_resized, msg WM_PAINT)])
    by (repeat constructor; vm_compute; discriminate).
  split; [exact E0|]. split; [exact Ed|]. split; [exact Hall|].
  intros w'.
  assert (Hrun :
    deliver ((env_ok, msg WM_CREATE)
             :: [(env_resized, msg WM_SIZE); (env_nobrush, msg WM_PAINT);
                 (env_ok, msg WM_PAINT); (env_lost, msg WM_PAINT);
                 (env_resized, msg WM_PAINT)]
             ++ [(env_ok, msg WM_DESTROY)]) (constructed hwnd0 garbage)
    = Some (tt, w'))
    by (vm_compute; reflexivity).
  split; [exact Hrun|].
  exact (shutdown_leaves_no_object hwnd0 garbage env_ok env_ok
           (msg WM_CREATE) (msg WM_DESTROY) _ w' E0 Ed Hall Hrun).
Defined.

(** X7.  [WM_CREATE] does not release a factory the window already
    holds.  If the message arrives while [pFactory] is set and the new
    factory is created, [pFactory] is overwritten with the new one
    without any call to [Release]: the old factory stays alive and no
    member points to it any more. *)
Theorem WM_CREATE_overwrites_held_factory
    (env : Env) (wp lp : Z) (w : World) (f : ptr) :
  wf w -> pFactory (this w) = Some f ->
  SUCCEEDED (env_hrFactory env) = true ->
  exists w' f',
    HandleMessage env WM_CREATE wp lp w = Some (0, w') /\
    log w' = log w ++ [EvD2D1CreateFactory D2D1_FACTORY_TYPE_SINGLE_THREADED
                         (env_hrFactory env)] /\
    pFactory (this w') = Some f' /\ f' <> f /\
    is_Some (heap w' !! f) /\
    f ∉ held [pRenderTarget (this w'); pBrush (this w'); pFactory (this w')].
Proof.
  intros Hwf Hf Hhr. destruct (wf_factory w Hwf f Hf) as [ty Hty].
  assert (Hne : fresh (dom (heap w)) <> f).
  { intros E. rewrite <- E, fresh_unallocated in Hty. discriminate. }
  exists (mkWorld (set_pFactory (Some (fresh (dom (heap w)))) (this w))
            (<[fresh (dom (heap w)) :=
                 ID2D1Factory D2D1_FACTORY_TYPE_SINGLE_THREADED]> (heap w))
            (log w ++ [EvD2D1CreateFactory D2D1_FACTORY_TYPE_SINGLE_THREADED
                         (env_hrFactory env)])),
         (fresh (dom (heap w))).
  split.
  { assert (HF : FAILED (env_hrFactory env) = false)
      by (rewrite FAILED_SUCCEEDED, Hhr; reflexivity).
    unfold HandleMessage, D2D1CreateFactory, created. unfold_run.
    clear Hf Hty. exec. reflexivity. }
  split; [reflexivity|]. split; [reflexivity|]. split; [exact Hne|].
  split.
  { simpl. rewrite lookup_insert_ne by exact Hne. rewrite Hty. eauto. }
  rewrite elem_of_held3. simpl. intros [Ht|[Hb|E]].
  - destruct (wf_target w Hwf f Ht) as (h & px & Hobj). congruence.
  - destruct (wf_brush w Hwf f Hb) as (t & Hobj). congruence.
  - congruence.
Qed.

Lemma WM_CREATE_overwrites_held_factory_witness :
  wf world_painted /\ pFactory (this world_painted) = Some 1%positive /\
  SUCCEEDED (env_hrFactory env_ok) = true /\
  exists w' f',
    HandleMessage env_ok WM_CREATE 0 0 world_painted = Some (0, w') /\
    log w' = log world_painted ++
             [EvD2D1CreateFactory D2D1_FACTORY_TYPE_SINGLE_THREADED
                (env_hrFactory env_ok)] /\
    pFactory (this w') = Some f' /\ f' <> 1%positive /\
    is_Some (heap w' !! 1%positive) /\
    1%positive ∉ held [pRenderTarget (this w'); pBrush (this w');
                       pFactory (this w')].
Proof.
  assert (Hwf : wf world_painted) by wf_concrete.
  assert (Hf : pFactory (this world_painted) = Some 1%positive)
    by (vm_compute; reflexivity).
  assert (Hhr : SUCCEEDED (env_hrFactory env_ok) = true) by reflexivity.
  split; [exact Hwf|]. split; [exact Hf|]. split; [exact Hhr|].
  exact (WM_CREATE_overwrites_held_factory env_ok 0 0 world_painted
           1%positive Hwf Hf Hhr).
Defined.

(** ** The layout fits the render target *)

Lemma in_sync_constructed dips h e : in_sync dips (constructed h e).
Proof. intros t h' px Ht. discriminate. Qed.

Lemma in_sync_CreateGraphicsResources env w hr w0 :
  wf w -> in_sync (env_dips env) w ->
  CreateGraphicsResources env w = Some (hr, w0) -> in_sync (env_dips env) w0.
Proof.
  intros Hwf Hsync Hrun. create_cases env w Hwf Hrun.
  - exact Hsync.
  - intros t h px Ht Hobj. simpl in *. inversion Ht; subst t.
    destruct (fresh_fresh_unallocated (heap w)
                (ID2D1HwndRenderTarget (m_hwnd (this w)) (client_size env)))
      as [Hne _].
    rewrite lookup_insert_ne in Hobj by congruence.
    rewrite lookup_insert_eq in Hobj. inversion Hobj; subst. auto.
  - intros t h px Ht Hobj. simpl in *. inversion Ht; subst t.
    rewrite lookup_insert_eq in Hobj. inversion Hobj; subst.
    split; [reflexivity | congruence].
  - intros t h px Ht Hobj. simpl in *. congruence.
Qed.

Lemma in_sync_HandleMessage env uMsg wp lp w res w' :
  wf w -> in_sync (env_dips env) w ->
  HandleMessage env uMsg wp lp w = Some (res, w') -> in_sync (env_dips env) w'.
Proof.
  intros Hwf Hsync Hrun.
  destruct (HandleMessage_result env uMsg wp lp w res w' Hwf Hrun)
    as [[_ [(_ & Ht & Hh)|(_ & Ht & Hh)]]
       |[(_ & Ht & Hh)|[[_ Hp]|[[_ Hr]|(_ & _ & _ & _ & Ht & Hh)]]]].
  - intros t h px Hrt Hobj. rewrite Ht in Hrt |- *. rewrite Hh in Hobj.
    simpl in *. destruct (wf_target w Hwf t Hrt) as (h' & px' & Hlive).
    rewrite lookup_insert_ne in Hobj.
    + apply (Hsync t h px Hrt Hobj).
    + intros E. rewrite <- E, fresh_unallocated in Hlive. discriminate.
  - intros t h px Hrt Hobj. rewrite Ht in Hrt |- *. rewrite Hh in Hobj.
    apply (Hsync t h px Hrt Hobj).
  - intros t h px Hrt Hobj. rewrite Ht in Hrt. discriminate.
  - destruct (OnPaint_result env w w' Hwf Hp) as (hr & w0 & Hc & Hwf0 & Hcases).
    pose proof (in_sync_CreateGraphicsResources env w hr w0 Hwf Hsync Hc)
      as Hsync0.
    destruct Hcases as [[_ ->]|(t0 & _ & _ & [(_ & Ht & Hh)|(_ & Ht & Hh)])].
    + exact Hsync0.
    + intros t h px Hrt Hobj. rewrite Ht in Hrt |- *. rewrite Hh in Hobj.
      apply (Hsync0 t h px Hrt Hobj).
    + intros t h px Hrt Hobj. rewrite Ht in Hrt. discriminate.
  - destruct (pRenderTarget (this w)) as [t0|] eqn:Ht0.
    + destruct (wf_target w Hwf t0 Ht0) as (h0 & px0 & Htarget).
      rewrite (Resize_run env w t0 h0 px0 Ht0 Htarget) in Hr.
      inversion Hr; subst. intros t h px Hrt Hobj. simpl in *.
      rewrite Ht0 in Hrt. inversion Hrt; subst t.
      rewrite lookup_insert_eq in Hobj. inversion Hobj; subst.
      split; [|reflexivity].
      apply (Hsync t0 h px0 Ht0 Htarget).
    + rewrite Resize_null in Hr by exact Ht0. inversion Hr; subst. exact Hsync.
  - intros t h px Hrt Hobj. rewrite Ht in Hrt |- *. rewrite Hh in Hobj.
    apply (Hsync t h px Hrt Hobj).
Qed.

(** X8.  On a display whose conversion from pixels to device-independent
    pixels does not change, after any messages delivered to a new
    window: the render target the window holds was created for the
    window's own handle, and whenever a brush is held as well, [ellipse]
    is exactly the circle inscribed in the render target's current
    size, also after any number of resizes and device losses. *)
Theorem layout_fits_render_target
    (dips : D2D1_SIZE_U -> D2D1_SIZE_F) (h : HWND) (e : D2D1_ELLIPSE)
    (msgs : list (Env * MSG)) (w' : World) :
  Forall (fun em : Env * MSG => env_dips em.1 = dips) msgs ->
  deliver msgs (constructed h e) = Some (tt, w') ->
  forall t hw px,
    pRenderTarget (this w') = Some t ->
    heap w' !! t = Some (ID2D1HwndRenderTarget hw px) ->
    hw = m_hwnd (this w') /\
    (pBrush (this w') <> None ->
     ellipse (this w') = inscribed_circle (dips px) /\
     radiusX (ellipse (this w')) = radiusY (ellipse (this w'))).
Proof.
  intros Hall Hrun.
  assert (Hinv : wf w' /\ in_sync dips w').
  { pose proof (wf_constructed h e) as Hwf.
    pose proof (in_sync_constructed dips h e) as Hsync.
    revert Hrun Hwf Hsync. generalize (constructed h e) as w.
    induction Hall as [|[env m] rest Hd _ IH]; intros w Hrun Hwf Hsync.
    - inversion Hrun; subst. auto.
    - rewrite deliver_cons in Hrun. simpl in Hd. subst dips.
      destruct (HandleMessage env (message m) (wParam m) (lParam m) w)
        as [[res w1]|] eqn:Hm; [|discriminate].
      apply (IH w1 Hrun).
      + eapply wf_HandleMessage; eassumption.
      + eapply in_sync_HandleMessage; eassumption. }
  destruct Hinv as [_ Hsync]. intros t hw px Ht Hobj.
  destruct (Hsync t hw px Ht Hobj) as [Hh He].
  split; [exact Hh|]. intros Hb. split; [exact (He Hb)|].
  rewrite (He Hb). reflexivity.
Qed.

Lemma layout_fits_render_target_witness :
  let msgs := [(env_ok, msg WM_CREATE); (env_ok, msg WM_PAINT);
               (env_resized, msg WM_SIZE); (env_lost, msg WM_PAINT);
               (env_resized, msg WM_PAINT)] in
  Forall (fun em : Env * MSG => env_dips em.1 = dips96) msgs /\
  deliver msgs (constructed hwnd0 garbage) = Some (tt, after msgs) /\
  pRenderTarget (this (after msgs)) = Some 2%positive /\
  heap (after msgs) !! 2%positive =
    Some (ID2D1HwndRenderTarget hwnd0 (mkSizeU 1024 768)) /\
  hwnd0 = m_hwnd (this (after msgs)) /\
  (pBrush (this (after msgs)) <> None ->
   ellipse (this (after msgs)) = inscribed_circle (dips96 (mkSizeU 1024 768)) /\
   radiusX (ellipse (this (after msgs))) = radiusY (ellipse (this (after msgs)))).
Proof.
  intros msgs.
  assert (Hall : Forall (fun em : Env * MSG => env_dips em.1 = dips96) msgs)
    by (repeat constructor).
  assert (Hrun : deliver msgs (constructed hwnd0 garbage) = Some (tt, after msgs))
    by (vm_compute; reflexivity).
  assert (Ht : pRenderTarget (this (after msgs)) = Some 2%positive)
    by (vm_compute; reflexivity).
  assert (Hobj : heap (after msgs) !! 2%positive =
                   Some (ID2D1HwndRenderTarget hwnd0 (mkSizeU 1024 768)))
    by (vm_compute; reflexivity).
  split; [exact Hall|]. split; [exact Hrun|]. split; [exact Ht|].
  split; [exact Hobj|].
  exact (layout_fits_render_target dips96 hwnd0 garbage msgs (after msgs)
           Hall Hrun _ _ _ Ht Hobj).
Defined.

(** ** The calls of one paint *)

(** X9.  The calls of any one [OnPaint] on a sound window are well
    bracketed.  First come creation calls only (none when the render
    target exists).  Then either nothing more is called, or exactly:
    [BeginPaint], [BeginDraw], [Clear], [FillEllipse], [EndDraw], all on
    one and the same render target, then the [Release] calls (none
    unless the device was lost; then the target and the brush passed to
    [FillEllipse]), and last [EndPaint] for the window that
    [BeginPaint] was called for.  So nothing is released between
    [BeginDraw] and [EndDraw], and a paint that was begun is always
    ended, also when the device is lost. *)
Theorem OnPaint_calls_are_bracketed (env : Env) (w w' : World) :
  wf w -> OnPaint env w = Some (tt, w') ->
  exists creation,
    Forall is_creation_call creation /\
    (pRenderTarget (this w) <> None -> creation = []) /\
    (log w' = log w ++ creation \/
     exists t e br rel,
       log w' = log w ++ creation ++
                [EvBeginPaint (m_hwnd (this w)); EvBeginDraw t;
                 EvClear t (D2D1.ColorF_rgb D2D1.BlanchedAlmond);
                 EvFillEllipse t e br;
                 EvEndDraw t (env_hrEndDraw env)] ++
                (EvRelease <$> rel) ++ [EvEndPaint (m_hwnd (this w))] /\
       rel = if device_lost (env_hrEndDraw env) then held [Some t; br] else []).
Proof.
  intros Hwf Hrun.
  destruct (CreateGraphicsResources env w) as [[hr w0]|] eqn:Hc.
  2:{ rewrite OnPaint_unfold in Hrun. unfold mbind, M_bind, bind in Hrun.
      rewrite Hc in Hrun. discriminate. }
  assert (Hlog : exists creation,
             Forall is_creation_call creation /\
             (pRenderTarget (this w) <> None -> creation = []) /\
             log w0 = log w ++ creation /\
             m_hwnd (this w0) = m_hwnd (this w)).
  { pose proof Hc as Hc'. create_cases env w Hwf Hc'.
    - exists []. rewrite app_nil_r. repeat split; auto.
    - eexists. split; [|split; [congruence | split; reflexivity]].
      repeat constructor.
    - eexists. split; [|split; [congruence | split; reflexivity]].
      repeat constructor.
    - eexists. split; [|split; [congruence | split; reflexivity]].
      repeat constructor. }
  destruct Hlog as (creation & Hall & Hnone & Hlog & Hh).
  exists creation. split; [exact Hall|]. split; [exact Hnone|].
  destruct (SUCCEEDED hr) eqn:Hhr.
  - right.
    destruct (OnPaint_outcome env w hr w0 Hwf Hc Hhr) as (t & Ht & _ & Hout).
    rewrite Hout in Hrun.
    exists t, (ellipse (this w0)), (pBrush (this w0)).
    destruct (device_lost (env_hrEndDraw env)); inversion Hrun; subst w';
      eexists; (split; [|reflexivity]); cbn [log]; unfold frame;
      rewrite Hlog, Hh, <- !app_assoc; reflexivity.
  - left. rewrite (OnPaint_run env w hr w0 Hwf Hc), Hhr in Hrun.
    inversion Hrun; subst. exact Hlog.
Qed.

Lemma OnPaint_calls_are_bracketed_witness :
  wf world_painted /\
  OnPaint env_lost world_painted =
    Some (tt, after [(env_ok, msg WM_CREATE); (env_ok, msg WM_PAINT);
                     (env_lost, msg WM_PAINT)]) /\
  let w' := after [(env_ok, msg WM_CREATE); (env_ok, msg WM_PAINT);
                   (env_lost, msg WM_PAINT)] in
  exists creation,
    Forall is_creation_call creation /\
    (pRenderTarget (this world_painted) <> None -> creation = []) /\
    (log w' = log world_painted ++ creation \/
     exists t e br rel,
       log w' = log world_painted ++ creation ++
                [EvBeginPaint (m_hwnd (this world_painted)); EvBeginDraw t;
                 EvClear t (D2D1.ColorF_rgb D2D1.BlanchedAlmond);
                 EvFillEllipse t e br;
                 EvEndDraw t (env_hrEndDraw env_lost)] ++
                (EvRelease <$> rel) ++
                [EvEndPaint (m_hwnd (this world_painted))] /\
       rel = if device_lost (env_hrEndDraw env_lost)
             then held [Some t; br] else []).
Proof.
  assert (Hwf : wf world_painted) by wf_concrete.
  assert (Hrun : OnPaint env_lost world_painted =
                   Some (tt, after [(env_ok, msg WM_CREATE); (env_ok, msg WM_PAINT);
                                    (env_lost, msg WM_PAINT)]))
    by (vm_compute; reflexivity).
  split; [exact Hwf|]. split; [exact Hrun|].
  exact (OnPaint_calls_are_bracketed env_lost world_painted _ Hwf Hrun).
Defined.

(** ** Resizing twice *)

(** X10.  Of two resizes in a row only the last counts.  With a render
    target held, handling a resize for one client rectangle and then
    one for another leaves the members and the objects exactly as the
    second resize alone would: the target has the last size, the
    ellipse is laid out for it, and every other object is untouched.
    In particular resizing twice to the same rectangle changes nothing
    beyond the first. *)
Theorem Resize_last_size_wins
    (env1 env2 : Env) (w : World) (t : ptr) (h : HWND) (px : D2D1_SIZE_U) :
  pRenderTarget (this w) = Some t ->
  heap w !! t = Some (ID2D1HwndRenderTarget h px) ->
  exists w1 w12 w2,
    Resize env1 w = Some (tt, w1) /\
    Resize env2 w1 = Some (tt, w12) /\
    Resize env2 w = Some (tt, w2) /\
    this w12 = this w2 /\ heap w12 = heap w2 /\
    heap w12 !! t = Some (ID2D1HwndRenderTarget h (client_size env2)) /\
    (forall p, p <> t -> heap w12 !! p = heap w !! p).
Proof.
  intros Ht Hobj.
  rewrite (Resize_run env1 w t h px Ht Hobj).
  rewrite (Resize_run env2 w t h px Ht Hobj).
  do 3 eexists. split; [reflexivity|]. split.
  { apply (Resize_run env2 _ t h (client_size env1)); [exact Ht|].
    apply lookup_insert_eq. }
  split; [reflexivity|]. split; [reflexivity|]. simpl. split.
  { apply insert_insert_eq. }
  split; [apply lookup_insert_eq|].
  intros p Hp. rewrite !lookup_insert_ne by congruence. reflexivity.
Qed.

Lemma Resize_last_size_wins_witness :
  pRenderTarget (this world_painted) = Some 2%positive /\
  heap world_painted !! 2%positive =
    Some (ID2D1HwndRenderTarget hwnd0 (mkSizeU 800 600)) /\
  exists w1 w12 w2,
    Resize env_resized world_painted = Some (tt, w1) /\
    Resize env_ok w1 = Some (tt, w12) /\
    Resize env_ok world_painted = Some (tt, w2) /\
    this w12 = this w2 /\ heap w12 = heap w2 /\
    heap w12 !! 2%positive =
      Some (ID2D1HwndRenderTarget hwnd0 (client_size env_ok)) /\
    (forall p, p <> 2%positive -> heap w12 !! p = heap world_painted !! p).
Proof.
  assert (Ht : pRenderTarget (this world_painted) = Some 2%positive)
    by (vm_compute; reflexivity).
  assert (Hobj : heap world_painted !! 2%positive =
                   Some (ID2D1HwndRenderTarget hwnd0 (mkSizeU 800 600)))
    by (vm_compute; reflexivity).
  split; [exact Ht|]. split; [exact Hobj|].
  exact (Resize_last_size_wins env_resized env_ok world_painted _ _ _ Ht Hobj).
Defined.

(** ** Runs in which the brush can always be created *)

(** X11.  Take any messages delivered to a new window during which
    [CreateSolidColorBrush] never fails (anything else may fail, the
    device may be lost, the window may be resized).  Then every later
    paint that gets past [CreateGraphicsResources] clears the target to
    BlanchedAlmond and then fills, on the same target, an ellipse whose
    two radii are equal, with a brush that is held, alive and was
    created with the colour r = 1, g = 0, b = 0, a = 1. *)
Theorem paint_draws_red_circle_while_brush_never_failed
    (h : HWND) (e : D2D1_ELLIPSE) (msgs : list (Env * MSG))
    (env : Env) (w w0 : World) (hr : HRESULT) :
  Forall (fun em : Env * MSG => SUCCEEDED (env_hrBrush em.1) = true) msgs ->
  deliver msgs (constructed h e) = Some (tt, w) ->
  CreateGraphicsResources env w = Some (hr, w0) -> SUCCEEDED hr = true ->
  exists t b target el rest w',
    OnPaint env w = Some (tt, w') /\
    log w' = log w0 ++
             [EvBeginPaint (m_hwnd (this w)); EvBeginDraw t;
              EvClear t (D2D1.ColorF_rgb D2D1.BlanchedAlmond);
              EvFillEllipse t el (Some b);
              EvEndDraw t (env_hrEndDraw env)] ++ rest /\
    radiusX el = radiusY el /\
    pBrush (this w0) = Some b /\
    heap w0 !! b =
      Some (ID2D1SolidColorBrush target
              (mkColorF (FLOAT_of_Z 1) (FLOAT_of_Z 0) (FLOAT_of_Z 0)
                 (FLOAT_of_Z 1))).
Proof.
  intros Hall Hrun Hc Hhr.
  destruct (complete_deliver msgs _ w Hall (wf_constructed h e)
              (complete_constructed h e) Hrun) as [Hwf Hcomplete].
  destruct (OnPaint_complete_draws_red_circle env w hr w0 Hwf Hcomplete Hc Hhr)
    as (t & b & target & el & rest & w' & _ & Hb & Hobj & _ & Hcircle & Hp & Hlog).
  exists t, b, target, el, rest, w'. auto.
Qed.

Lemma paint_draws_red_circle_while_brush_never_failed_witness :
  let msgs := [(env_ok, msg WM_CREATE); (env_lost, msg WM_PAINT);
               (env_ok, msg WM_PAINT); (env_resized, msg WM_SIZE)] in
  Forall (fun em : Env * MSG => SUCCEEDED (env_hrBrush em.1) = true) msgs /\
  deliver msgs (constructed hwnd0 garbage) = Some (tt, after msgs) /\
  CreateGraphicsResources env_lost (after msgs) = Some (S_OK, after msgs) /\
  SUCCEEDED S_OK = true /\
  exists t b target el rest w',
    OnPaint env_lost (after msgs) = Some (tt, w') /\
    log w' = log (after msgs) ++
             [EvBeginPaint (m_hwnd (this (after msgs))); EvBeginDraw t;
              EvClear t (D2D1.ColorF_rgb D2D1.BlanchedAlmond);
              EvFillEllipse t el (Some b);
              EvEndDraw t (env_hrEndDraw env_lost)] ++ rest /\
    radiusX el = radiusY el /\
    pBrush (this (after msgs)) = Some b /\
    heap (after msgs) !! b =
      Some (ID2D1SolidColorBrush target
              (mkColorF (FLOAT_of_Z 1) (FLOAT_of_Z 0) (FLOAT_of_Z 0)
                 (FLOAT_of_Z 1))).
Proof.
  intros msgs.
  assert (Hall : Forall (fun em : Env * MSG =>
                           SUCCEEDED (env_hrBrush em.1) = true) msgs)
    by (repeat constructor).
  assert (Hrun : deliver msgs (constructed hwnd0 garbage) = Some (tt, after msgs))
    by (vm_compute; reflexivity).
  assert (Hc : CreateGraphicsResources env_lost (after msgs) =
                 Some (S_OK, after msgs))
    by (vm_compute; reflexivity).
  assert (Hhr : SUCCEEDED S_OK = true) by reflexivity.
  split; [exact Hall|]. split; [exact Hrun|]. split; [exact Hc|].
  split; [exact Hhr|].
  exact (paint_draws_red_circle_while_brush_never_failed hwnd0 garbage msgs
           env_lost (after msgs) (after msgs) S_OK Hall Hrun Hc Hhr).
Defined.

(** ** Messages the window does not handle *)

(** X12.  A message other than [WM_CREATE], [WM_DESTROY], [WM_PAINT]
    and [WM_SIZE] is passed on unchanged: [DefWindowProc] is called once
    with the window's handle and the very [uMsg], [wParam] and [lParam]
    received, its result is returned, and neither a member nor an
    object of the window is touched, whatever state the window is in
    (no precondition: also before creation and after destruction). *)
Theorem unhandled_message_goes_to_DefWindowProc
    (env : Env) (uMsg : UINT) (wp lp : Z) (w : World) :
  uMsg <> WM_CREATE -> uMsg <> WM_DESTROY ->
  uMsg <> WM_PAINT -> uMsg <> WM_SIZE ->
  HandleMessage env uMsg wp lp w =
    Some (env_defWindowProc env,
          mkWorld (this w) (heap w)
            (log w ++ [EvDefWindowProc (m_hwnd (this w)) uMsg wp lp])).
Proof.
  intros N1 N2 N3 N4. unfold HandleMessage.
  apply Z.eqb_neq in N1, N2, N3, N4. rewrite N1, N2, N3, N4.
  reflexivity.
Qed.

Lemma unhandled_message_goes_to_DefWindowProc_witness :
  0x0200 <> WM_CREATE /\ 0x0200 <> WM_DESTROY /\
  0x0200 <> WM_PAINT /\ 0x0200 <> WM_SIZE /\
  HandleMessage env_ok 0x0200 7 9 world_painted =
    Some (env_defWindowProc env_ok,
          mkWorld (this world_painted) (heap world_painted)
            (log world_painted ++
             [EvDefWindowProc (m_hwnd (this world_painted)) 0x0200 7 9])).
Proof.
  assert (N1 : 0x0200 <> WM_CREATE) by discriminate.
  assert (N2 : 0x0200 <> WM_DESTROY) by discriminate.
  assert (N3 : 0x0200 <> WM_PAINT) by discriminate.
  assert (N4 : 0x0200 <> WM_SIZE) by discriminate.
  split; [exact N1|]. split; [exact N2|]. split; [exact N3|].
  split; [exact N4|].
  exact (unhandled_message_goes_to_DefWindowProc env_ok 0x0200 7 9
           world_painted N1 N2 N3 N4).
Defined.

(** ** A paint whose resources cannot be created *)

(** X13.  When [CreateGraphicsResources] reports failure, [OnPaint]
    does nothing more: no paint or drawing call is made, nothing is
    released, and the window is left as [CreateGraphicsResources] left
    it.  That failure can only arise while there was no render target.
    If it was the render target that could not be created, no member
    and no object has changed at all, so the next [WM_PAINT] starts
    from the same window. *)
Theorem OnPaint_gives_up_when_creation_fails
    (env : Env) (w w0 : World) (hr : HRESULT) :
  wf w ->
  CreateGraphicsResources env w = Some (hr, w0) -> SUCCEEDED hr = false ->
  OnPaint env w = Some (tt, w0) /\
  pRenderTarget (this w) = None /\
  (forall c, c ∈ drop (length (log w)) (log w0) -> is_creation_call c) /\
  (SUCCEEDED (env_hrRenderTarget env) = false ->
   this w0 = this w /\ heap w0 = heap w).
Proof.
  intros Hwf Hc Hhr.
  split. { rewrite (OnPaint_run env w hr w0 Hwf Hc), Hhr. reflexivity. }
  pose proof Hc as Hc'. create_cases env w Hwf Hc'.
  - discriminate.
  - congruence.
  - split; [reflexivity|]. split; [|congruence].
    intros c Hin. cbn [log] in Hin. rewrite drop_app_length in Hin.
    repeat (apply elem_of_cons in Hin as [->|Hin]; [exact I|]).
    now apply elem_of_nil in Hin.
  - split; [reflexivity|]. split; [|auto].
    intros c Hin. cbn [log] in Hin. rewrite drop_app_length in Hin.
    repeat (apply elem_of_cons in Hin as [->|Hin]; [exact I|]).
    now apply elem_of_nil in Hin.
Qed.

Lemma OnPaint_gives_up_when_creation_fails_witness :
  wf world_created /\
  CreateGraphicsResources env_nobrush world_created =
    Some (E_OUTOFMEMORY, world_brushless) /\
  SUCCEEDED E_OUTOFMEMORY = false /\
  OnPaint env_nobrush world_created = Some (tt, world_brushless) /\
  pRenderTarget (this world_created) = None /\
  (forall c, c ∈ drop (length (log world_created)) (log world_brushless) ->
             is_creation_call c) /\
  (SUCCEEDED (env_hrRenderTarget env_nobrush) = false ->
   this world_brushless = this world_created /\
   heap world_brushless = heap world_created).
Proof.
  assert (Hwf : wf world_created) by wf_concrete.
  assert (Hc : CreateGraphicsResources env_nobrush world_created =
                 Some (E_OUTOFMEMORY, world_brushless))
    by (vm_compute; reflexivity).
  assert (Hhr : SUCCEEDED E_OUTOFMEMORY = false) by reflexivity.
  split; [exact Hwf|]. split; [exact Hc|]. split; [exact Hhr|].
  exact (OnPaint_gives_up_when_creation_fails env_nobrush world_created
           world_brushless E_OUTOFMEMORY Hwf Hc Hhr).
Defined.

(** ** Creation of the factory *)

(** X14.  [WM_CREATE] makes exactly one call, [D2D1CreateFactory] for a
    single-threaded factory, and its result decides the answer.  When
    the call fails, [HandleMessage] returns -1 and a window that held
    no factory is left exactly as it was.  When it succeeds,
    [HandleMessage] returns 0 and [pFactory] points to a new factory
    that did not exist before.  In both cases [m_hwnd],
    [pRenderTarget], [pBrush] and [ellipse] are unchanged and every
    object that was alive still is. *)
Theorem WM_CREATE_outcome (env : Env) (wp lp : Z) (w : World) :
  exists w',
    HandleMessage env WM_CREATE wp lp w =
      Some ((if SUCCEEDED (env_hrFactory env) then 0 else -1), w') /\
    log w' = log w ++
             [EvD2D1CreateFactory D2D1_FACTORY_TYPE_SINGLE_THREADED
                (env_hrFactory env)] /\
    (SUCCEEDED (env_hrFactory env) = false ->
     pFactory (this w) = None -> this w' = this w /\ heap w' = heap w) /\
    (SUCCEEDED (env_hrFactory env) = true ->
     exists f,
       heap w !! f = None /\ pFactory (this w') = Some f /\
       heap w' !! f = Some (ID2D1Factory D2D1_FACTORY_TYPE_SINGLE_THREADED)) /\
    m_hwnd (this w') = m_hwnd (this w) /\
    pRenderTarget (this w') = pRenderTarget (this w) /\
    pBrush (this w') = pBrush (this w) /\
    ellipse (this w') = ellipse (this w) /\
    (forall p o, heap w !! p = Some o -> heap w' !! p = Some o).
Proof.
  pose proof (FAILED_SUCCEEDED (env_hrFactory env)) as HF.
  unfold HandleMessage, D2D1CreateFactory, created. unfold_run.
  destruct (SUCCEEDED (env_hrFactory env)) eqn:Hhr; simpl in HF; exec.
  - eexists. split; [reflexivity|]. split; [reflexivity|].
    split; [discriminate|]. split.
    { intros _. exists (fresh (dom (heap w))).
      split; [apply fresh_unallocated|]. split; [reflexivity|].
      apply lookup_insert_eq. }
    repeat split. intros p o Hp. now apply insert_fresh_keeps.
  - eexists. split; [reflexivity|]. split; [reflexivity|]. split.
    { intros _ Hf. split; [|reflexivity].
      destruct w as [[h f t b e] hp lg]. simpl in *. subst f. reflexivity. }
    split; [discriminate|]. repeat split. auto.
Qed.

Lemma WM_CREATE_outcome_witness :
  SUCCEEDED (env_hrFactory env_ok) = true /\
  exists w',
    HandleMessage env_ok WM_CREATE 0 0 (constructed hwnd0 garbage) =
      Some ((if SUCCEEDED (env_hrFactory env_ok) then 0 else -1), w') /\
    log w' = log (constructed hwnd0 garbage) ++
             [EvD2D1CreateFactory D2D1_FACTORY_TYPE_SINGLE_THREADED
                (env_hrFactory env_ok)] /\
    exists f,
      heap (constructed hwnd0 garbage) !! f = None /\
      pFactory (this w') = Some f /\
      heap w' !! f = Some (ID2D1Factory D2D1_FACTORY_TYPE_SINGLE_THREADED).
Proof.
  assert (Hhr : SUCCEEDED (env_hrFactory env_ok) = true) by reflexivity.
  split; [exact Hhr|].
  destruct (WM_CREATE_outcome env_ok 0 0 (constructed hwnd0 garbage))
    as (w' & Hrun & Hlog & _ & Hok & _).
  exists w'. split; [exact Hrun|]. split; [exact Hlog|]. exact (Hok Hhr).
Defined.
